(** * pickle_rick: a shallow embedding of [BasicRick] and [ExtendedPickleRick]

    The development follows [src/pickle_rick/__init__.py].  Python values
    are one inductive type, an object's [__dict__] and a Python [dict] are
    association lists in insertion order, exceptions are an error monad,
    and everything the module asks of its environment (PyYAML, [json],
    the file system, [os.environ], [eval]) is a record of functions. *)

From Stdlib Require Import List String Ascii ZArith Bool Lia DecimalString.
Import ListNotations.
Open Scope string_scope.

(** ** Python values *)

(** The two classes of the module; [type(self).__name__] is [cls_name]. *)
Inductive cls : Type := Basic | Extended.

Definition cls_name (c : cls) : string :=
  match c with
  | Basic => "BasicRick"
  | Extended => "ExtendedPickleRick"
  end.

#[local] Set Warnings "-register-all".

(** Scalars, lists, [dict]s with string keys, and instances of the two
    classes carrying their [__dict__].  Floats are left out. *)
Inductive value : Type :=
| VNone
| VBool (b : bool)
| VInt (z : Z)
| VStr (s : string)
| VList (l : list value)
| VDict (d : list (string * value))
| VRick (c : cls) (fields : list (string * value)).

Definition pydict : Type := list (string * value).

(** Induction over values that reaches the elements of lists and the
    values of mappings. *)
Section ValueInd.
Variable P : value -> Prop.
Hypothesis HNone : P VNone.
Hypothesis HBool : forall b, P (VBool b).
Hypothesis HInt : forall z, P (VInt z).
Hypothesis HStr : forall s, P (VStr s).
Hypothesis HList : forall l, Forall P l -> P (VList l).
Hypothesis HDict : forall d, Forall (fun kv => P (snd kv)) d -> P (VDict d).
Hypothesis HRick :
  forall c d, Forall (fun kv => P (snd kv)) d -> P (VRick c d).

Fixpoint value_rect' (v : value) : P v :=
  let fix on_list (l : list value) : Forall P l :=
    match l with
    | [] => Forall_nil _
    | x :: r => Forall_cons _ (value_rect' x) (on_list r)
    end in
  let fix on_items (d : pydict) : Forall (fun kv => P (snd kv)) d :=
    match d with
    | [] => Forall_nil _
    | kv :: r =>
        Forall_cons (P := fun kv => P (snd kv)) kv
          (value_rect' (snd kv)) (on_items r)
    end in
  match v with
  | VNone => HNone
  | VBool b => HBool b
  | VInt z => HInt z
  | VStr s => HStr s
  | VList l => HList l (on_list l)
  | VDict d => HDict d (on_items d)
  | VRick c d => HRick c d (on_items d)
  end.
End ValueInd.

(** ** Dictionaries *)

(** [key in d] and [d[key]]. *)
Fixpoint lookup (key : string) (d : pydict) : option value :=
  match d with
  | [] => None
  | (k, v) :: r => if String.eqb k key then Some v else lookup key r
  end.

Definition contains (key : string) (d : pydict) : bool :=
  match lookup key d with Some _ => true | None => false end.

(** [d.update({k: v})] and [d[k] = v]: an existing key keeps its place. *)
Fixpoint update (d : pydict) (k : string) (v : value) : pydict :=
  match d with
  | [] => [(k, v)]
  | (k', v') :: r =>
      if String.eqb k' k then (k', v) :: r else (k', v') :: update r k v
  end.

Definition keys (d : pydict) : list string := map fst d.

(** Truth value of an object: [None], [False], [0], empty strings and
    containers are false; an instance is false when [__len__] is 0. *)
Definition truthy (v : value) : bool :=
  match v with
  | VNone => false
  | VBool b => b
  | VInt z => negb (Z.eqb z 0)
  | VStr s => negb (String.eqb s "")
  | VList l => match l with [] => false | _ => true end
  | VDict d => match d with [] => false | _ => true end
  | VRick _ d => match d with [] => false | _ => true end
  end.

(** ** Strings *)

Definition lower_ascii (c : ascii) : ascii :=
  let n := nat_of_ascii c in
  if (65 <=? n)%nat && (n <=? 90)%nat then ascii_of_nat (n + 32) else c.

Definition upper_ascii (c : ascii) : ascii :=
  let n := nat_of_ascii c in
  if (97 <=? n)%nat && (n <=? 122)%nat then ascii_of_nat (n - 32) else c.

Fixpoint map_string (f : ascii -> ascii) (s : string) : string :=
  match s with
  | EmptyString => EmptyString
  | String c r => String (f c) (map_string f r)
  end.

(** [str.lower] and [str.upper], on ASCII letters. *)
Definition lower (s : string) : string := map_string lower_ascii s.
Definition upper (s : string) : string := map_string upper_ascii s.

Fixpoint join (sep : string) (l : list string) : string :=
  match l with
  | [] => ""
  | [x] => x
  | x :: r => x ++ sep ++ join sep r
  end.

Definition squote : ascii := "039".
Definition dquote : ascii := "034".
Definition backslash : ascii := "092".

Fixpoint has_char (c : ascii) (s : string) : bool :=
  match s with
  | EmptyString => false
  | String c' r => Ascii.eqb c c' || has_char c r
  end.

Definition hex_digit (n : nat) : ascii :=
  if (n <? 10)%nat then ascii_of_nat (48 + n) else ascii_of_nat (87 + n).

(** One character of the [repr] of a [str] quoted with [q]. *)
Definition repr_char (q : ascii) (c : ascii) : string :=
  let n := nat_of_ascii c in
  if Ascii.eqb c q || Ascii.eqb c backslash then String backslash (String c "")
  else if (n =? 9)%nat then String backslash "t"
  else if (n =? 10)%nat then String backslash "n"
  else if (n =? 13)%nat then String backslash "r"
  else if (n <? 32)%nat || (n =? 127)%nat then
    String backslash
      (String "x" (String (hex_digit (n / 16)) (String (hex_digit (n mod 16)) "")))
  else String c "".

Fixpoint repr_chars (q : ascii) (s : string) : string :=
  match s with
  | EmptyString => EmptyString
  | String c r => repr_char q c ++ repr_chars q r
  end.

(** [repr] of a [str]: single quotes, unless the text has a single quote
    and no double quote. *)
Definition repr_str (s : string) : string :=
  let q := if has_char squote s && negb (has_char dquote s)
           then dquote else squote in
  String q (repr_chars q s ++ String q "").

Definition repr_int (z : Z) : string :=
  DecimalString.NilZero.string_of_int (Z.to_int z).

(** [sub in s] and [s.endswith(suffix)]. *)
Fixpoint is_substring (sub s : string) : bool :=
  String.prefix sub s ||
  match s with
  | EmptyString => false
  | String _ r => is_substring sub r
  end.

Definition ends_with (suffix s : string) : bool :=
  let n := String.length s in
  let m := String.length suffix in
  (m <=? n)%nat && String.eqb (substring (n - m) m s) suffix.

(** [l[n]] for a Python list: a negative index counts from the end;
    nothing outside the list. *)
Definition py_index {A : Type} (l : list A) (n : Z) : option A :=
  if (0 <=? n)%Z then nth_error l (Z.to_nat n)
  else if (- Z.of_nat (List.length l) <=? n)%Z
       then nth_error l (Z.to_nat (Z.of_nat (List.length l) + n))
       else None.

(** ** Exceptions and the environment *)

(** The exceptions of the model.  All are subclasses of [Exception],
    what [except Exception] catches; [SystemExit] and
    [KeyboardInterrupt] are not among them. *)
Inductive exn : Type :=
| ValueError | TypeError | KeyError | AttributeError
| YAMLError | JSONDecodeError | OSError | EvalError.

Inductive result (A : Type) : Type :=
| Ok (a : A)
| Raise (e : exn).
Arguments Ok {A} a.
Arguments Raise {A} e.

Definition bind {A B} (m : result A) (f : A -> result B) : result B :=
  match m with
  | Ok a => f a
  | Raise e => Raise e
  end.

Notation "x <- m ;; k" := (bind m (fun x => k))
  (at level 61, m at next level, right associativity).

(** What the module calls outside itself.  [yaml_load] is
    [yaml.safe_load] (and [yaml.load] with the [SafeLoader]) on a text,
    [yaml_rest] what that call leaves unread of a stream, [json_loads]
    is [json.loads], [yaml_safe_dump] is [yaml.safe_dump(_, None)],
    [read_file] opens a path for reading and reads it, [getenv] is
    [os.environ], [py_eval] is [eval]. *)
Record World : Type := {
  yaml_load : string -> result value;
  yaml_rest : string -> string;
  json_loads : string -> result value;
  yaml_safe_dump : value -> result string;
  path_isfile : string -> bool;
  read_file : string -> result string;
  getenv : string -> option string;
  py_eval : value -> result value
}.

(** How a call of [__next__] ends. *)
Inductive outcome : Type :=
| Returns (v : value)
| StopIteration
| Raises (e : exn)
| RaisesIndexError.

(** The argument [base] of the constructors: a [dict], an open
    [TextIOWrapper] with the text still to be read, or a [str]. *)
Inductive base : Type :=
| BDict (d : pydict)
| BStream (content : string)
| BStr (s : string).

(** [dictionary.items()]: defined on a [dict] and on an instance (the
    class has an [items] method), an [AttributeError] elsewhere. *)
Definition items (v : value) : result pydict :=
  match v with
  | VDict d => Ok d
  | VRick _ d => Ok d
  | _ => Raise AttributeError
  end.

(** [os.path.isfile(base)]: [os.stat] takes a path; handed the stream
    object it raises [TypeError], which [isfile] does not catch. *)
Definition os_path_isfile (w : World) (b : base) : result bool :=
  match b with
  | BStr s => Ok (path_isfile w s)
  | _ => Raise TypeError
  end.

(** A method call [self.name(...)]: the attribute is looked up in the
    [__dict__] of the instance before the functions of the class, so a
    field called [name] is what gets called, and no value here can be
    called: [TypeError].  Without such a field the method runs. *)
Definition method {A : Type} (self : pydict) (name : string)
    (body : result A) : result A :=
  if contains name self then Raise TypeError else body.

(** ** [repr] and [==] *)

(** [__repr__] of the classes, [repr] of the built-in values. *)
Fixpoint repr (v : value) : string :=
  match v with
  | VNone => "None"
  | VBool true => "True"
  | VBool false => "False"
  | VInt z => repr_int z
  | VStr s => repr_str s
  | VList l => "[" ++ join ", " (map repr l) ++ "]"
  | VDict d =>
      "{" ++ join ", "
        (map (fun kv => repr_str (fst kv) ++ ": " ++ repr (snd kv)) d) ++ "}"
  | VRick c d =>
      cls_name c ++ "(" ++ join ", "
        (map (fun kv => fst kv ++ "=" ++ repr (snd kv)) d) ++ ")"
  end.

(** [a == b].  An instance on either side compares the two [repr]s
    ([__eq__]); mappings compare regardless of order. *)
Fixpoint py_eq (a b : value) {struct a} : bool :=
  match a, b with
  | VRick c d, _ => String.eqb (repr (VRick c d)) (repr b)
  | _, VRick c d => String.eqb (repr a) (repr (VRick c d))
  | VNone, VNone => true
  | VBool x, VBool y => Bool.eqb x y
  | VInt x, VInt y => Z.eqb x y
  | VBool x, VInt y => Z.eqb (if x then 1 else 0) y
  | VInt x, VBool y => Z.eqb x (if y then 1 else 0)
  | VStr x, VStr y => String.eqb x y
  | VList l1, VList l2 =>
      (fix go (l1 l2 : list value) : bool :=
         match l1, l2 with
         | [], [] => true
         | x :: r1, y :: r2 => py_eq x y && go r1 r2
         | _, _ => false
         end) l1 l2
  | VDict d1, VDict d2 =>
      Nat.eqb (List.length d1) (List.length d2) &&
      (fix go (d : pydict) : bool :=
         match d with
         | [] => true
         | (k, v) :: r =>
             match lookup k d2 with
             | Some v' => py_eq v v'
             | None => false
             end && go r
         end) d1
  | _, _ => false
  end.

(** ** class BasicRick *)

Module BasicRick.

(** What one round of the loop of [_iternalize] stores under the key:
    [BasicRick(v, deep)] for a [dict], with [deep] a new list whose
    [dict] elements are [BasicRick(i, deep)], anything else as it is. *)
Fixpoint internalized (deep : bool) (v : value) : value :=
  match v with
  | VDict d =>
      VRick Basic
        (fold_left
           (fun self kv => update self (fst kv) (internalized deep (snd kv)))
           d [])
  | VList l =>
      if deep then
        VList (map (fun i => match i with
                             | VDict _ => internalized deep i
                             | _ => i
                             end) l)
      else v
  | _ => v
  end.

(** [_iternalize(self, dictionary, deep)]: the loop over
    [dictionary.items()], updating [self.__dict__]. *)
Definition _iternalize (self : pydict) (dictionary : pydict) (deep : bool)
  : pydict :=
  fold_left
    (fun self kv => update self (fst kv) (internalized deep (snd kv)))
    dictionary self.

(** The method as [__init__] calls it, on whatever was parsed: the new
    [__dict__] and how the call ended. *)
Definition iternalize_call (deep : bool) (config_data : value)
    (self : pydict) : pydict * result unit :=
  match items config_data with
  | Ok d => (_iternalize self d deep, Ok tt)
  | Raise e => (self, Raise e)
  end.

(** One [try: ...; self._iternalize(...); return / except Exception]
    block: the [__dict__] afterwards and whether [__init__] returned. *)
Definition attempt (method : value -> pydict -> pydict * result unit)
    (parsed : result value) (self : pydict) : pydict * bool :=
  match parsed with
  | Raise _ => (self, false)
  | Ok config_data =>
      match method config_data self with
      | (self', Ok _) => (self', true)
      | (self', Raise _) => (self', false)
      end
  end.

Definition or_else (a b : pydict -> pydict * bool) (self : pydict)
  : pydict * bool :=
  match a self with
  | (self', true) => (self', true)
  | (self', false) => b self'
  end.

Definition nothing (self : pydict) : pydict * bool := (self, false).

(** [__init__], with [self._iternalize] passed in ([method]) since the
    subclass overrides it. *)
Definition __init__ (w : World)
    (method : value -> pydict -> pydict * result unit)
    (b : base) (self : pydict) : pydict * result unit :=
  match b with
  | BDict d => method (VDict d) self
  | _ =>
      let stream :=
        match b with
        | BStream content =>
            or_else (attempt method (yaml_load w content))
                    (attempt method (json_loads w (yaml_rest w content)))
        | _ => nothing
        end in
      match stream self with
      | (self1, true) => (self1, Ok tt)
      | (self1, false) =>
          match os_path_isfile w b with
          | Raise e => (self1, Raise e)
          | Ok isfile =>
              let file :=
                match b, isfile with
                | BStr path, true =>
                    or_else
                      (attempt method (txt <- read_file w path ;; yaml_load w txt))
                      (attempt method (txt <- read_file w path ;; json_loads w txt))
                | _, _ => nothing
                end in
              let text :=
                match b with
                | BStr s =>
                    or_else (attempt method (yaml_load w s))
                            (attempt method (json_loads w s))
                | _ => nothing
                end in
              match or_else file text self1 with
              | (self2, true) => (self2, Ok tt)
              | (self2, false) => (self2, Raise ValueError)
              end
          end
      end
  end.

(** [BasicRick(base, deep)]. *)
Definition new (w : World) (b : base) (deep : bool) : result value :=
  match __init__ w (iternalize_call deep) b [] with
  | (self, Ok _) => Ok (VRick Basic self)
  | (_, Raise e) => Raise e
  end.

Definition __repr__ (c : cls) (self : pydict) : string := repr (VRick c self).

Definition __eq__ (c : cls) (self : pydict) (other : value) : bool :=
  String.eqb (__repr__ c self) (repr other).

(** The loop of [_recursive_search] over [dictionary.items()], with
    the recursive call [self._recursive_search(_, key)] as [rec]: the
    first truthy result found in an instance or a [dict], [None] when
    the loop ends, the exception of a call that raises. *)
Section Loop.
Variable rec : value -> result value.

Fixpoint search_loop (l : pydict) : result value :=
  match l with
  | [] => Ok VNone
  | (_, v) :: r =>
      match v with
      | VRick _ _ | VDict _ =>
          match rec v with
          | Ok value => if truthy value then Ok value else search_loop r
          | Raise e => Raise e
          end
      | _ => search_loop r
      end
  end.
End Loop.

(** The call [self._recursive_search(d, key)], [d] being the
    [__dict__] of the instance or the [dict] held in [v]; the calls
    inside go through [self] again. *)
Fixpoint search (self : pydict) (key : string) (v : value) : result value :=
  method self "_recursive_search"
    match v with
    | VDict d | VRick _ d =>
        match lookup key d with
        | Some x => Ok x
        | None => search_loop (search self key) d
        end
    | _ => Ok VNone
    end.

Definition _recursive_search (self : pydict) (dictionary : pydict)
    (key : string) : result value :=
  search self key (VDict dictionary).

(** The call [self.get(key, default)]. *)
Definition get (self : pydict) (key : string) (default : value)
  : result value :=
  method self "get"
    (value <- _recursive_search self self key ;;
     value <- (if negb (truthy value) then
                 value <- _recursive_search self self (lower key) ;;
                 if negb (truthy value)
                 then _recursive_search self self (upper key)
                 else Ok value
               else Ok value) ;;
     if negb (truthy value) then Ok default else Ok value).

(** The call [self.has(key, deep)]. *)
Definition has (self : pydict) (key : string) (deep : bool) : result bool :=
  method self "has"
    (if contains key self then Ok true
     else if deep then
       value <- _recursive_search self self key ;;
       if truthy value then Ok true else Ok false
     else Ok false).

(** The loop of [dict()] over [self.__dict__.items()], with what is
    stored for a value as [rec]. *)
Section Deconstruct.
Variable rec : value -> result value.

Fixpoint dict_loop (fields : pydict) (d : pydict) : result pydict :=
  match fields with
  | [] => Ok d
  | (key, value) :: r =>
      x <- rec value ;;
      dict_loop r (update d key x)
  end.
End Deconstruct.

(** What the loop stores for [value]: [value.dict()] for an instance,
    [value] itself otherwise. *)
Fixpoint dict_value (v : value) : result value :=
  match v with
  | VRick _ fields =>
      method fields "dict"
        (d <- dict_loop dict_value fields [] ;; Ok (VDict d))
  | _ => Ok v
  end.

(** The call [self.dict()]. *)
Definition dict (self : pydict) : result pydict :=
  method self "dict" (dict_loop dict_value self []).

(** The call [self.to_yaml_string()]. *)
Definition to_yaml_string (w : World) (self : pydict) : result string :=
  method self "to_yaml_string"
    (self_as_dict <- dict self ;; yaml_safe_dump w (VDict self_as_dict)).

(** [self[key] = item] and [self[key]]. *)
Definition __setitem__ (self : pydict) (key : string) (item : value)
  : pydict :=
  update self key item.

Definition __getitem__ (self : pydict) (key : string) : result value :=
  match lookup key self with
  | Some x => Ok x
  | None => Raise KeyError
  end.

Definition __len__ (self : pydict) : nat := List.length self.

(** The name under which [self.__n] lives in [__dict__]: the attribute
    is written inside [class BasicRick]. *)
Definition cursor : string := "_BasicRick__n".

(** An integer as [<] and [+= 1] take it: an [int], or a [bool]. *)
Definition as_int (v : value) : option Z :=
  match v with
  | VInt n => Some n
  | VBool b => Some (if b then 1 else 0)%Z
  | _ => None
  end.

(** The test of [__next__], [values] and [keys] on a field name. *)
Definition hidden (c : cls) (name : string) : bool :=
  is_substring (cls_name c) name || ends_with "__n" name.

Definition __iter__ (self : pydict) : pydict := update self cursor (VInt 0).

(** [__next__] on an instance of class [c]: the [__dict__] afterwards
    and how the call ends. *)
Definition __next__ (c : cls) (self : pydict) : pydict * outcome :=
  match lookup cursor self with
  | None => (self, Raises AttributeError)
  | Some x =>
      match as_int x with
      | None => (self, Raises TypeError)
      | Some n =>
          if (n <? Z.of_nat (List.length self))%Z then
            match py_index (map fst self) n with
            | None => (self, RaisesIndexError)
            | Some name =>
                let '(self1, n1) :=
                  if hidden c name
                  then (update self cursor (VInt (n + 1)), (n + 1)%Z)
                  else (self, n) in
                if (n1 <? Z.of_nat (List.length self1))%Z then
                  match py_index (map fst self1) n1 with
                  | None => (self1, RaisesIndexError)
                  | Some name1 =>
                      match lookup name1 self1 with
                      | Some obj =>
                          (update self1 cursor (VInt (n1 + 1)), Returns obj)
                      | None => (self1, Raises KeyError)
                      end
                  end
                else (self1, StopIteration)
            end
          else (self, StopIteration)
      end
  end.

(** [for obj in self]: [__iter__], then [__next__] until
    [StopIteration]; the objects met, unless a call raises or the fuel
    runs out. *)
Fixpoint exhaust (fuel : nat) (c : cls) (self : pydict)
  : pydict * option (list value) :=
  match fuel with
  | O => (self, None)
  | S fuel' =>
      match __next__ c self with
      | (self', Returns obj) =>
          match exhaust fuel' c self' with
          | (self'', Some objs) => (self'', Some (obj :: objs))
          | (self'', None) => (self'', None)
          end
      | (self', StopIteration) => (self', Some [])
      | (self', _) => (self', None)
      end
  end.

Definition for_loop (fuel : nat) (c : cls) (self : pydict)
  : pydict * option (list value) :=
  exhaust fuel c (__iter__ self).

(** The calls [self.items()], [self.values()] and [self.keys()] on an
    instance of class [c]. *)
Definition items (self : pydict) : result (list (string * result value)) :=
  method self "items"
    (Ok (map (fun key => (key, __getitem__ self key)) (map fst self))).

Definition values (c : cls) (self : pydict) : result (list (result value)) :=
  method self "values"
    (Ok (map (__getitem__ self)
             (filter (fun k => negb (hidden c k)) (map fst self)))).

Definition keys (c : cls) (self : pydict) : result (list string) :=
  method self "keys"
    (Ok (filter (fun k => negb (hidden c k)) (map fst self))).

End BasicRick.

(** ** What the methods compute *)

(** The results of the methods when every call finds the method of the
    class: [BasicRick] above returns these on a node none of whose
    fields hides a method it calls. *)
Module Pure.

Section Loop.
Variable rec : value -> value.

Fixpoint search_loop (l : pydict) : value :=
  match l with
  | [] => VNone
  | (_, v) :: r =>
      match v with
      | VRick _ _ | VDict _ =>
          let value := rec v in
          if truthy value then value else search_loop r
      | _ => search_loop r
      end
  end.
End Loop.

Fixpoint search (key : string) (v : value) : value :=
  match v with
  | VDict d | VRick _ d =>
      match lookup key d with
      | Some x => x
      | None => search_loop (search key) d
      end
  | _ => VNone
  end.

Definition _recursive_search (dictionary : pydict) (key : string) : value :=
  search key (VDict dictionary).

Definition get (self : pydict) (key : string) (default : value) : value :=
  let value := _recursive_search self key in
  let value :=
    if negb (truthy value) then
      let value := _recursive_search self (lower key) in
      if negb (truthy value) then _recursive_search self (upper key)
      else value
    else value in
  if negb (truthy value) then default else value.

Definition has (self : pydict) (key : string) (deep : bool) : bool :=
  if contains key self then true
  else if deep && truthy (_recursive_search self key) then true
  else false.

Fixpoint dict_value (v : value) : value :=
  match v with
  | VRick _ fields =>
      VDict (fold_left
               (fun d kv => update d (fst kv) (dict_value (snd kv)))
               fields [])
  | _ => v
  end.

Definition dict (self : pydict) : pydict :=
  fold_left (fun d kv => update d (fst kv) (dict_value (snd kv))) self [].

Definition items (self : pydict) : list (string * result value) :=
  map (fun key => (key, BasicRick.__getitem__ self key)) (map fst self).

Definition values (c : cls) (self : pydict) : list (result value) :=
  map (BasicRick.__getitem__ self)
      (filter (fun k => negb (BasicRick.hidden c k)) (map fst self)).

Definition keys (c : cls) (self : pydict) : list string :=
  filter (fun k => negb (BasicRick.hidden c k)) (map fst self).

End Pure.

(** ** class ExtendedPickleRick(BasicRick) *)

Module ExtendedPickleRick.

(** [v[key]]. *)
Definition subscript (v : pydict) (key : string) : result value :=
  match lookup key v with
  | Some x => Ok x
  | None => Raise KeyError
  end.

(** ['type' in v.keys() and v['type'] == tag]. *)
Definition has_type (tag : string) (v : pydict) : bool :=
  match lookup "type" v with
  | Some t => py_eq t (VStr tag)
  | None => false
  end.

(** [os.getenv(key, default)]; a key that is not a [str] is a
    [TypeError]. *)
Definition os_getenv (w : World) (key default : value) : result value :=
  match key with
  | VStr name =>
      Ok (match getenv w name with
          | Some s => VStr s
          | None => default
          end)
  | _ => Raise TypeError
  end.

(** The body of [_iternalize], with the constructor
    [ExtendedPickleRick(_, deep, args['load_lambda'])] as [construct].
    [args] is always [{'load_lambda': load_lambda}], so
    [args and args['load_lambda']] is [load_lambda]. *)
Section Body.
Variable w : World.
Variable deep : bool.
Variable load_lambda : bool.
Variable construct : value -> result value.

(** The inner loop over a list, when [deep]. *)
Fixpoint new_list (l : list value) : result (list value) :=
  match l with
  | [] => Ok []
  | i :: r =>
      x <- match i with
           | VDict _ => construct i
           | _ => Ok i
           end ;;
      r' <- new_list r ;;
      Ok (x :: r')
  end.

(** What one round of the loop stores under the key. *)
Definition internalized (v : value) : result value :=
  match v with
  | VDict d =>
      if has_type "env" d then
        match lookup "default" d with
        | Some _ =>
            load <- subscript d "load" ;;
            default <- subscript d "default" ;;
            os_getenv w load default
        | None =>
            load <- subscript d "load" ;;
            os_getenv w load VNone
        end
      else if has_type "lambda" d then
        if load_lambda then
          load <- subscript d "load" ;; py_eval w load
        else subscript d "load"
      else construct v
  | VList l =>
      if deep then l' <- new_list l ;; Ok (VList l') else Ok v
  | _ => Ok v
  end.

(** The loop over [dictionary.items()]: the [__dict__] when it ends
    or when a round raises. *)
Fixpoint loop (l : pydict) (self : pydict) : pydict * result unit :=
  match l with
  | [] => (self, Ok tt)
  | (k, v) :: r =>
      match internalized v with
      | Ok x => loop r (update self k x)
      | Raise e => (self, Raise e)
      end
  end.
End Body.

(** [ExtendedPickleRick(v, deep, load_lambda)] for a [dict] [v], as the
    loop calls it. *)
Fixpoint construct (w : World) (deep load_lambda : bool) (v : value)
  : result value :=
  match v with
  | VDict d =>
      match loop w deep load_lambda (construct w deep load_lambda) d [] with
      | (self, Ok _) => Ok (VRick Extended self)
      | (_, Raise e) => Raise e
      end
  | _ => Raise TypeError
  end.

Definition _iternalize (w : World) (self : pydict) (dictionary : pydict)
    (deep load_lambda : bool) : pydict * result unit :=
  loop w deep load_lambda (construct w deep load_lambda) dictionary self.

Definition iternalize_call (w : World) (deep load_lambda : bool)
    (config_data : value) (self : pydict) : pydict * result unit :=
  match items config_data with
  | Ok d => _iternalize w self d deep load_lambda
  | Raise e => (self, Raise e)
  end.

(** [ExtendedPickleRick(base, deep, load_lambda)]:
    [super().__init__(base, deep, {'load_lambda': load_lambda})]. *)
Definition new (w : World) (b : base) (deep load_lambda : bool)
  : result value :=
  match BasicRick.__init__ w (iternalize_call w deep load_lambda) b [] with
  | (self, Ok _) => Ok (VRick Extended self)
  | (_, Raise e) => Raise e
  end.

End ExtendedPickleRick.

(** ** Documents *)

Fixpoint nodupb (l : list string) : bool :=
  match l with
  | [] => true
  | x :: r => negb (existsb (String.eqb x) r) && nodupb r
  end.

(** No instance of the classes inside: what a parser or a literal gives. *)
Fixpoint plain (v : value) : bool :=
  match v with
  | VRick _ _ => false
  | VList l => forallb plain l
  | VDict d => forallb (fun kv => plain (snd kv)) d
  | _ => true
  end.

(** Every mapping inside holds a key once, as a Python [dict] does. *)
Fixpoint distinct_keys (v : value) : bool :=
  match v with
  | VList l => forallb distinct_keys l
  | VDict d | VRick _ d =>
      nodupb (keys d) && forallb (fun kv => distinct_keys (snd kv)) d
  | _ => true
  end.

Fixpoint no_lists (v : value) : bool :=
  match v with
  | VList _ => false
  | VDict d | VRick _ d => forallb (fun kv => no_lists (snd kv)) d
  | _ => true
  end.

(** A mapping of plain data. *)
Definition mapping (M : pydict) : bool :=
  plain (VDict M) && distinct_keys (VDict M).

(** ** Where a key is stored *)

(** The values stored under [key] in an instance or a [dict] and in the
    instances and [dict]s nested in it, in the order of the fields.
    Lists are not entered, as [_recursive_search] does not enter them. *)
Fixpoint occurrences (key : string) (v : value) : list value :=
  match v with
  | VDict d | VRick _ d =>
      flat_map
        (fun kv =>
           ((if String.eqb (fst kv) key then [snd kv] else [])
              ++ occurrences key (snd kv))%list)
        d
  | _ => []
  end.

Definition stored_under (key : string) (self : pydict) : list value :=
  occurrences key (VDict self).

(** What [_recursive_search] may return. *)
Definition found_or_none (key : string) (v : value) : Prop :=
  Pure.search key v = VNone \/
  In (Pure.search key v) (occurrences key v).

(** [v] is the one value stored under [key] in [c]. *)
Definition only_value (key : string) (c : value) (v : value) : Prop :=
  In v (occurrences key c) /\ forall v', In v' (occurrences key c) -> v' = v.

(** ** Sample environments and documents *)

(** An environment with no files and no variables, whose parsers and
    [eval] reject everything. *)
Definition bare_world : World := {|
  yaml_load := fun _ => Raise YAMLError;
  yaml_rest := fun _ => "";
  json_loads := fun _ => Raise JSONDecodeError;
  yaml_safe_dump := fun _ => Raise YAMLError;
  path_isfile := fun _ => false;
  read_file := fun _ => Raise OSError;
  getenv := fun _ => None;
  py_eval := fun _ => Raise EvalError
|}.

(** [{"a": {"b": 1}, "c": "x"}] *)
Definition sample_nested : pydict :=
  [("a", VDict [("b", VInt 1)]); ("c", VStr "x")].

(** [{"a": {"b": 1}, "c": [1, {"d": 2}]}] *)
Definition sample_with_list : pydict :=
  [("a", VDict [("b", VInt 1)]); ("c", VList [VInt 1; VDict [("d", VInt 2)]])].

(** [{"a": 0}] *)
Definition sample_zero : pydict := [("a", VInt 0)].

(** [{"a": {"b": 1}}] *)
Definition sample_child : pydict := [("a", VDict [("b", VInt 1)])].

(** [{"a": {"foo": 5}}] and [{"a": {"FOO": 5}}] *)
Definition sample_lower : pydict := [("a", VDict [("foo", VInt 5)])].
Definition sample_upper : pydict := [("a", VDict [("FOO", VInt 5)])].

(** [{"a": {"k": 1}}] *)
Definition sample_inner_key : pydict := [("a", VDict [("k", VInt 1)])].

(** A stand-in for a fresh [object()] handed to [get] as the default. *)
Definition sentinel : value := VStr "<sentinel>".

(** [{"x": {"type": "env", "load": "MY_VAR", "default": "fallback"}}] *)
Definition sample_env : pydict :=
  [("x", VDict [("type", VStr "env"); ("load", VStr "MY_VAR");
                ("default", VStr "fallback")])].

(** [{"f": {"type": "lambda", "load": "lambda x: x"}}] *)
Definition sample_lambda : pydict :=
  [("f", VDict [("type", VStr "lambda"); ("load", VStr "lambda x: x")])].

(** What [os.getenv] gives for an [env] placeholder [v] naming [name]. *)
Definition env_value (w : World) (name : string) (v : pydict) : value :=
  match getenv w name with
  | Some s => VStr s
  | None =>
      match lookup "default" v with
      | Some default => default
      | None => VNone
      end
  end.

(** Whether a parse gave something [_iternalize] can iterate. *)
Definition loads_mapping (parsed : result value) : bool :=
  match parsed with
  | Ok (VDict _) | Ok (VRick _ _) => true
  | _ => false
  end.

(** An environment whose YAML parser reads the text [[1, 2]] as the list
    it denotes and leaves nothing of the stream for the JSON parser. *)
Definition list_world : World := {|
  yaml_load := fun t => if String.eqb t "[1, 2]"
                        then Ok (VList [VInt 1; VInt 2])
                        else Raise YAMLError;
  yaml_rest := fun _ => "";
  json_loads := fun t => if String.eqb t "[1, 2]"
                         then Ok (VList [VInt 1; VInt 2])
                         else Raise JSONDecodeError;
  yaml_safe_dump := fun _ => Raise YAMLError;
  path_isfile := fun _ => false;
  read_file := fun _ => Raise OSError;
  getenv := fun _ => None;
  py_eval := fun _ => Raise EvalError
|}.

Definition nl : string := String "010" "".

(** [{"b": 1, "a": 2}], the same mapping with its keys in sorted order,
    and the text PyYAML writes for both. *)
Definition sample_ba : pydict := [("b", VInt 1); ("a", VInt 2)].
Definition sample_ab : pydict := [("a", VInt 2); ("b", VInt 1)].
Definition sample_ab_yaml : string := "a: 2" ++ nl ++ "b: 1" ++ nl.

(** What PyYAML does on these two mappings and on that text:
    [yaml.safe_dump] writes the keys of a mapping in sorted order
    ([sort_keys] defaults to true), [yaml.safe_load] reads them in the
    order of the text. *)
Definition pyyaml_fragment : World := {|
  yaml_load := fun t => if String.eqb t sample_ab_yaml
                        then Ok (VDict sample_ab)
                        else Raise YAMLError;
  yaml_rest := fun _ => "";
  json_loads := fun _ => Raise JSONDecodeError;
  yaml_safe_dump := fun v =>
    if String.eqb (repr v) "{'b': 1, 'a': 2}"
       || String.eqb (repr v) "{'a': 2, 'b': 1}"
    then Ok sample_ab_yaml
    else Raise YAMLError;
  path_isfile := fun _ => false;
  read_file := fun _ => Raise OSError;
  getenv := fun _ => None;
  py_eval := fun _ => Raise EvalError
|}.

(** [{"c": [{"d": 2}]}] *)
Definition sample_dict_in_list : pydict :=
  [("c", VList [VDict [("d", VInt 2)]])].

(** No mapping held under a key, at any depth outside lists, has a
    [type] field equal to [env] or [lambda]. *)
Fixpoint placeholder_free (v : value) : bool :=
  match v with
  | VDict d =>
      forallb
        (fun kv =>
           match snd kv with
           | VDict d' =>
               negb (ExtendedPickleRick.has_type "env" d')
               && negb (ExtendedPickleRick.has_type "lambda" d')
           | _ => true
           end && placeholder_free (snd kv))
        d
  | _ => true
  end.

(** [v] with every node in it made an [ExtendedPickleRick]. *)
Fixpoint relabel (v : value) : value :=
  match v with
  | VList l => VList (map relabel l)
  | VDict d => VDict (map (fun kv => (fst kv, relabel (snd kv))) d)
  | VRick _ d => VRick Extended (map (fun kv => (fst kv, relabel (snd kv))) d)
  | _ => v
  end.

(** A value under a key that the resolver treats as the base builder
    does: a mapping without [type] equal to [env] or [lambda] whose
    values are such values again; with [deep], a list whose mapping
    elements have such values. *)
Fixpoint unresolved (deep : bool) (v : value) : bool :=
  match v with
  | VDict d =>
      negb (ExtendedPickleRick.has_type "env" d)
      && negb (ExtendedPickleRick.has_type "lambda" d)
      && forallb (fun kv => unresolved deep (snd kv)) d
  | VList l =>
      negb deep ||
      forallb (fun i => match i with
                        | VDict di =>
                            forallb (fun kv => unresolved deep (snd kv)) di
                        | _ => true
                        end) l
  | _ => true
  end.

(** ** Fields that hide methods *)

(** No mapping in [v], itself or held under a key at any depth outside
    lists, has the key [name]. *)
Fixpoint free_of (name : string) (v : value) : bool :=
  match v with
  | VDict d | VRick _ d =>
      negb (contains name d) && forallb (fun kv => free_of name (snd kv)) d
  | _ => true
  end.

(** No node in [v], itself or held as a field of a node, has a field
    called [dict]: the nodes [dict()] calls [dict()] on. *)
Fixpoint deconstructible (v : value) : bool :=
  match v with
  | VRick _ d =>
      negb (contains "dict" d)
      && forallb (fun kv => deconstructible (snd kv)) d
  | _ => true
  end.


(** ** The YAML library *)

Fixpoint increasing (l : list string) : bool :=
  match l with
  | [] => true
  | x :: r =>
      match r with
      | [] => true
      | y :: _ => String.ltb x y
      end && increasing r
  end.

(** The keys of every mapping in [v] are in sorted order, the order in
    which [yaml.safe_dump] writes them. *)
Fixpoint keys_sorted (v : value) : bool :=
  match v with
  | VList l => forallb keys_sorted l
  | VDict d | VRick _ d =>
      increasing (keys d) && forallb (fun kv => keys_sorted (snd kv)) d
  | _ => true
  end.

(** The loader reads back what the dumper wrote, for plain data whose
    keys are in the order the dumper writes them in. *)
Definition yaml_reads_back (w : World) : Prop :=
  forall v txt,
    plain v = true -> keys_sorted v = true ->
    yaml_safe_dump w v = Ok txt -> yaml_load w txt = Ok v.

Definition is_sample_ab (v : value) : bool :=
  match v with
  | VDict [(k1, VInt a); (k2, VInt b)] =>
      String.eqb k1 "a" && Z.eqb a 2 && String.eqb k2 "b" && Z.eqb b 1
  | _ => false
  end.

(** A YAML library that handles the one document [{"a": 2, "b": 1}]. *)
Definition pyyaml_sorted : World := {|
  yaml_load := fun t => if String.eqb t sample_ab_yaml
                        then Ok (VDict sample_ab)
                        else Raise YAMLError;
  yaml_rest := fun _ => "";
  json_loads := fun _ => Raise JSONDecodeError;
  yaml_safe_dump := fun v => if is_sample_ab v then Ok sample_ab_yaml
                             else Raise YAMLError;
  path_isfile := fun _ => false;
  read_file := fun _ => Raise OSError;
  getenv := fun _ => None;
  py_eval := fun _ => Raise EvalError
|}.

(** ** Paths into a tree *)

Inductive step : Type :=
| Key (k : string)
| Index (i : nat).

(** The value reached from [v] by keys of mappings and nodes and by
    positions in lists. *)
Fixpoint follow (path : list step) (v : value) : option value :=
  match path with
  | [] => Some v
  | Key k :: p =>
      match v with
      | VDict d | VRick _ d =>
          match lookup k d with
          | Some x => follow p x
          | None => None
          end
      | _ => None
      end
  | Index i :: p =>
      match v with
      | VList l =>
          match nth_error l i with
          | Some x => follow p x
          | None => None
          end
      | _ => None
      end
  end.

(** [meets deep v path p]: working on the value [v] of a key, the
    resolver comes along [path] to the mapping [p], the value of a key,
    through mappings it builds nodes from and, with [deep], through
    mappings that are elements of lists. *)
Inductive meets (deep : bool) : value -> list step -> pydict -> Prop :=
| meets_here (p : pydict) : meets deep (VDict p) [] p
| meets_key (d : pydict) (k : string) (v : value) (path : list step)
    (p : pydict) :
    ExtendedPickleRick.has_type "env" d = false ->
    ExtendedPickleRick.has_type "lambda" d = false ->
    lookup k d = Some v -> meets deep v path p ->
    meets deep (VDict d) (Key k :: path) p
| meets_index (l : list value) (i : nat) (d : pydict) (k : string)
    (v : value) (path : list step) (p : pydict) :
    deep = true -> nth_error l i = Some (VDict d) ->
    lookup k d = Some v -> meets deep v path p ->
    meets deep (VList l) (Index i :: Key k :: path) p.

(** ** More sample documents *)


(** [{"foo": 0, "a": {"foo": 5}}] and [{"c": [{"foo": 5}]}] *)
Definition sample_foo_twice : pydict :=
  [("foo", VInt 0); ("a", VDict [("foo", VInt 5)])].
Definition sample_foo_in_list : pydict :=
  [("c", VList [VDict [("foo", VInt 5)]])].

(** [{"a": {"f": {"type": "lambda", "load": "1 + 1"}},
     "c": [{"g": {"type": "lambda", "load": "2 + 2"}}]}] *)
Definition sample_deep_lambda : pydict :=
  [("a", VDict [("f", VDict [("type", VStr "lambda");
                             ("load", VStr "1 + 1")])]);
   ("c", VList [VDict [("g", VDict [("type", VStr "lambda");
                                    ("load", VStr "2 + 2")])]])].

(** An [eval] that knows two sums. *)
Definition sums_world : World := {|
  yaml_load := fun _ => Raise YAMLError;
  yaml_rest := fun _ => "";
  json_loads := fun _ => Raise JSONDecodeError;
  yaml_safe_dump := fun _ => Raise YAMLError;
  path_isfile := fun _ => false;
  read_file := fun _ => Raise OSError;
  getenv := fun _ => None;
  py_eval := fun v =>
    match v with
    | VStr s => if String.eqb s "1 + 1" then Ok (VInt 2)
                else if String.eqb s "2 + 2" then Ok (VInt 4)
                else Raise EvalError
    | _ => Raise TypeError
    end
|}.

(** ** Lemmas on dictionaries *)

Lemma nodupb_NoDup (l : list string) : nodupb l = true -> NoDup l.
Proof.
  induction l as [|x r IH]; simpl; intros H; constructor.
  - apply andb_true_iff in H as [H _].
    apply negb_true_iff in H.
    intros Hin.
    assert (E : existsb (String.eqb x) r = true).
    { apply existsb_exists. exists x. split; [exact Hin|apply String.eqb_refl]. }
    congruence.
  - apply IH. apply andb_true_iff in H as [_ H]. exact H.
Qed.

Lemma lookup_None (k : string) (d : pydict) :
  lookup k d = None <-> ~ In k (keys d).
Proof.
  induction d as [|[k' v] r IH]; simpl.
  - tauto.
  - destruct (String.eqb_spec k' k) as [->|Hne].
    + split; [discriminate|tauto].
    + rewrite IH. tauto.
Qed.

Lemma lookup_In (k : string) (d : pydict) (v : value) :
  lookup k d = Some v -> In (k, v) d.
Proof.
  induction d as [|[k' v'] r IH]; simpl; [discriminate|].
  destruct (String.eqb_spec k' k) as [->|Hne].
  - intros [= ->]. now left.
  - intros H. right. now apply IH.
Qed.

Lemma In_lookup (k : string) (d : pydict) (v : value) :
  NoDup (keys d) -> In (k, v) d -> lookup k d = Some v.
Proof.
  induction d as [|[k' v'] r IH]; simpl; [tauto|].
  intros Hnd [[= -> ->]|Hin].
  - now rewrite String.eqb_refl.
  - inversion Hnd as [|? ? Hk Hr]; subst.
    destruct (String.eqb_spec k' k) as [->|Hne].
    + exfalso. apply Hk. apply (in_map fst) in Hin. exact Hin.
    + now apply IH.
Qed.

Lemma update_fresh (d : pydict) (k : string) (v : value) :
  ~ In k (keys d) -> update d k v = (d ++ [(k, v)])%list.
Proof.
  induction d as [|[k' v'] r IH]; simpl; intros H; [reflexivity|].
  destruct (String.eqb_spec k' k) as [->|Hne]; [tauto|].
  rewrite IH; tauto.
Qed.

(** Filling a dictionary key by key from distinct keys lists the entries
    in order. *)
Lemma fold_update_map (f : value -> value) (d acc : pydict) :
  NoDup (keys acc ++ keys d)%list ->
  fold_left (fun self kv => update self (fst kv) (f (snd kv))) d acc
  = (acc ++ map (fun kv => (fst kv, f (snd kv))) d)%list.
Proof.
  revert acc.
  induction d as [|[k v] r IH]; simpl; intros acc Hnd.
  - now rewrite app_nil_r.
  - rewrite update_fresh.
    + rewrite IH.
      * now rewrite <- app_assoc.
      * unfold keys in *. rewrite map_app. simpl.
        rewrite <- app_assoc. exact Hnd.
    + intros Hin. apply NoDup_remove_2 in Hnd.
      apply Hnd. apply in_or_app. now left.
Qed.

Lemma fold_update_map_nil (f : value -> value) (d : pydict) :
  NoDup (keys d) ->
  fold_left (fun self kv => update self (fst kv) (f (snd kv))) d []
  = map (fun kv => (fst kv, f (snd kv))) d.
Proof.
  intros H. now rewrite fold_update_map.
Qed.

Lemma keys_map_snd (f : value -> value) (d : pydict) :
  keys (map (fun kv => (fst kv, f (snd kv))) d) = keys d.
Proof.
  unfold keys. rewrite map_map. now apply map_ext.
Qed.

Lemma lookup_map_snd (f : value -> value) (k : string) (d : pydict) :
  lookup k (map (fun kv => (fst kv, f (snd kv))) d)
  = option_map f (lookup k d).
Proof.
  induction d as [|[k' v] r IH]; simpl; [reflexivity|].
  now destruct (String.eqb k' k).
Qed.

(** ** The build and its inverse *)

Lemma distinct_keys_NoDup (c : cls) (d : pydict) :
  distinct_keys (VDict d) = true -> NoDup (keys d).
Proof.
  simpl. intros H. apply andb_true_iff in H as [H _].
  now apply nodupb_NoDup.
Qed.

Lemma iternalize_map (deep : bool) (d : pydict) :
  NoDup (keys d) ->
  BasicRick._iternalize [] d deep
  = map (fun kv => (fst kv, BasicRick.internalized deep (snd kv))) d.
Proof.
  intros H. unfold BasicRick._iternalize. now apply fold_update_map_nil.
Qed.

Lemma internalized_dict (deep : bool) (d : pydict) :
  BasicRick.internalized deep (VDict d)
  = VRick Basic (BasicRick._iternalize [] d deep).
Proof. reflexivity. Qed.

Lemma dict_value_rick (c : cls) (fields : pydict) :
  Pure.dict_value (VRick c fields) = VDict (Pure.dict fields).
Proof. reflexivity. Qed.

Lemma dict_map (fields : pydict) :
  NoDup (keys fields) ->
  Pure.dict fields
  = map (fun kv => (fst kv, Pure.dict_value (snd kv))) fields.
Proof.
  intros H. unfold Pure.dict. now apply fold_update_map_nil.
Qed.

Lemma map_id_on (A : Type) (f : A -> A) (l : list A) :
  Forall (fun x => f x = x) l -> map f l = l.
Proof.
  induction 1 as [|x r Hx _ IH]; simpl; [reflexivity|].
  now rewrite Hx, IH.
Qed.

(** [dict()] undoes the build on every value the build leaves without an
    instance inside a list: with [deep] off, or when there are no lists. *)
Lemma dict_internalized (deep : bool) (v : value) :
  plain v = true -> distinct_keys v = true ->
  deep = false \/ no_lists v = true ->
  Pure.dict_value (BasicRick.internalized deep v) = v.
Proof.
  induction v as [| | | |l IH|d IH|c d IH] using value_rect';
    intros Hp Hd Hl; try reflexivity.
  - destruct Hl as [->|Hl]; [reflexivity|discriminate].
  - pose proof (distinct_keys_NoDup Basic d Hd) as Hnd.
    rewrite internalized_dict, dict_value_rick.
    rewrite iternalize_map by exact Hnd.
    rewrite dict_map by (now rewrite keys_map_snd).
    rewrite map_map. simpl. f_equal.
    apply map_id_on.
    simpl in Hp, Hd. apply andb_true_iff in Hd as [_ Hd].
    rewrite forallb_forall in Hp, Hd.
    assert (Hl' : deep = false \/
                  forall kv, In kv d -> no_lists (snd kv) = true).
    { destruct Hl as [Hl|Hl]; [now left|right].
      simpl in Hl. now rewrite forallb_forall in Hl. }
    rewrite Forall_forall in IH |- *.
    intros [k x] Hin. simpl. f_equal.
    apply (IH (k, x)); [exact Hin|now apply (Hp (k, x))|now apply (Hd (k, x))|].
    destruct Hl' as [Hl'|Hl']; [now left|right; now apply (Hl' (k, x))].
  - discriminate.
Qed.

Lemma new_of_dict (w : World) (deep : bool) (M : pydict) :
  BasicRick.new w (BDict M) deep
  = Ok (VRick Basic (BasicRick._iternalize [] M deep)).
Proof. reflexivity. Qed.


(** C5: the build stores, under each key of a mapping, a child node for
    a mapping value; for a list value with [deep] a new list whose
    mapping elements are child nodes and whose other elements are
    unchanged; a list value without [deep], and any other value, as it
    is. *)
Theorem build_stores (deep : bool) (M : pydict) (k : string) (v : value) :
  nodupb (keys M) = true -> lookup k M = Some v ->
  let node := BasicRick._iternalize [] M deep in
  (forall d, v = VDict d ->
     lookup k node = Some (VRick Basic (BasicRick._iternalize [] d deep))) /\
  (forall l, v = VList l -> deep = true ->
     lookup k node
     = Some (VList (map (fun i => match i with
                                  | VDict d =>
                                      VRick Basic (BasicRick._iternalize [] d deep)
                                  | _ => i
                                  end) l))) /\
  (forall l, v = VList l -> deep = false -> lookup k node = Some (VList l)) /\
  ((forall d, v <> VDict d) -> (forall l, v <> VList l) ->
     lookup k node = Some v).
Proof.
  intros Hnd Hk node. subst node.
  apply nodupb_NoDup in Hnd.
  rewrite iternalize_map by exact Hnd.
  rewrite lookup_map_snd, Hk. simpl.
  repeat split.
  - now intros d ->.
  - intros l -> ->. simpl. do 2 f_equal.
    apply map_ext. now intros [].
  - now intros l -> ->.
  - intros Hd Hl. destruct v; try reflexivity.
    + now destruct (Hl l).
    + now destruct (Hd d).
Qed.

Lemma build_stores_witness :
  let node := BasicRick._iternalize [] sample_with_list false in
  lookup "a" node = Some (VRick Basic [("b", VInt 1)]) /\
  lookup "c" node = Some (VList [VInt 1; VDict [("d", VInt 2)]]).
Proof.
  split.
  - exact (proj1 (build_stores false sample_with_list "a" _ eq_refl eq_refl)
             _ eq_refl).
  - exact (proj1 (proj2 (proj2
             (build_stores false sample_with_list "c" _ eq_refl eq_refl)))
             _ eq_refl eq_refl).
Defined.

(** ** The recursive search *)

Lemma search_unfold (key : string) (d : pydict) :
  Pure._recursive_search d key
  = match lookup key d with
    | Some x => x
    | None => Pure.search_loop (Pure.search key) d
    end.
Proof. reflexivity. Qed.

Lemma search_rick (key : string) (c : cls) (d : pydict) :
  Pure.search key (VRick c d) = Pure._recursive_search d key.
Proof. reflexivity. Qed.

Lemma occurrences_rick (key : string) (c : cls) (d : pydict) :
  occurrences key (VRick c d) = stored_under key d.
Proof. reflexivity. Qed.

Lemma lookup_occurs (key : string) (d : pydict) (x : value) :
  lookup key d = Some x -> In x (stored_under key d).
Proof.
  unfold stored_under. simpl.
  induction d as [|[k v] r IH]; simpl; [discriminate|].
  destruct (String.eqb k key).
  - intros [= ->]. now left.
  - intros H. apply in_or_app. right. now apply IH.
Qed.

Lemma search_loop_occurs (key : string) (l : pydict) :
  Forall (fun kv => found_or_none key (snd kv)) l ->
  Pure.search_loop (Pure.search key) l = VNone \/
  In (Pure.search_loop (Pure.search key) l) (stored_under key l).
Proof.
  unfold stored_under. simpl.
  induction 1 as [|[k v] r Hv _ IH]; simpl; [now left|].
  assert (Hr : Pure.search_loop (Pure.search key) r = VNone \/
               In (Pure.search_loop (Pure.search key) r)
                  ((if String.eqb k key then [v] else [])
                     ++ occurrences key v
                     ++ flat_map
                          (fun kv =>
                             (if String.eqb (fst kv) key then [snd kv] else [])
                               ++ occurrences key (snd kv)) r)%list).
  { destruct IH as [IH|IH]; [now left|right].
    apply in_or_app. right. apply in_or_app. now right. }
  rewrite <- app_assoc.
  destruct v; try exact Hr;
    (destruct (truthy (Pure.search key _)); [|exact Hr]);
    (destruct Hv as [Hv|Hv]; [now left|right]);
    apply in_or_app; right; apply in_or_app; now left.
Qed.

(** The search returns [None] or a value stored under the key. *)
Lemma search_occurs (key : string) (v : value) : found_or_none key v.
Proof.
  induction v as [| | | |l IH|d IH|c d IH] using value_rect';
    try (now left); unfold found_or_none.
  - change (Pure.search key (VDict d))
      with (Pure._recursive_search d key).
    rewrite search_unfold.
    destruct (lookup key d) as [x|] eqn:E.
    + right. now apply lookup_occurs.
    + now apply search_loop_occurs.
  - rewrite search_rick, occurrences_rick, search_unfold.
    destruct (lookup key d) as [x|] eqn:E.
    + right. now apply lookup_occurs.
    + now apply search_loop_occurs.
Qed.

Lemma search_absent (key : string) (d : pydict) :
  stored_under key d = [] -> Pure._recursive_search d key = VNone.
Proof.
  intros H. destruct (search_occurs key (VDict d)) as [E|E]; [exact E|].
  fold (stored_under key d) in E. rewrite H in E. destruct E.
Qed.

Lemma search_loop_finds (key : string) (v : value) (l : pydict) :
  truthy v = true ->
  Forall (fun kv => only_value key (snd kv) v ->
                    Pure.search key (snd kv) = v) l ->
  lookup key l = None ->
  only_value key (VDict l) v ->
  Pure.search_loop (Pure.search key) l = v.
Proof.
  intros Hv. unfold only_value at 2. simpl.
  induction 1 as [|[k x] r Hx _ IH]; simpl; intros Hk [Hin Huniq].
  - destruct Hin.
  - destruct (String.eqb k key); [discriminate|]. simpl in Hin, Huniq.
    assert (Htail : ~ In v (occurrences key x) ->
                    Pure.search_loop (Pure.search key) r = v).
    { intros Hnot. apply IH; [exact Hk|]. split.
      - apply in_app_or in Hin. tauto.
      - intros v' H'. apply Huniq. apply in_or_app. now right. }
    assert (Hhead : In v (occurrences key x) -> Pure.search key x = v).
    { intros Hi. apply Hx. split; [exact Hi|].
      intros v' H'. apply Huniq. apply in_or_app. now left. }
    assert (Hfound : Pure.search key x = VNone \/
                     Pure.search key x = v).
    { destruct (search_occurs key x) as [E|E]; [now left|right].
      apply Huniq. apply in_or_app. now left. }
    destruct x; try (apply Htail; simpl; tauto);
      (destruct (truthy (Pure.search key _)) eqn:Et;
       [ destruct Hfound as [E|E]; [rewrite E in Et; discriminate|exact E]
       | apply Htail; intros Hi; rewrite (Hhead Hi) in Et; congruence ]).
Qed.

(** A truthy value that is the only one stored under the key is what the
    search returns. *)
Lemma search_finds (key : string) (v : value) (c : value) :
  truthy v = true -> only_value key c v -> Pure.search key c = v.
Proof.
  intros Hv.
  induction c as [| | | |l IH|d IH|k d IH] using value_rect';
    try (intros [[] _]).
  - intros Ho.
    change (Pure.search key (VDict d))
      with (Pure._recursive_search d key).
    rewrite search_unfold.
    destruct (lookup key d) as [x|] eqn:E.
    + apply (proj2 Ho). now apply lookup_occurs.
    + now apply search_loop_finds.
  - intros Ho. rewrite search_rick, search_unfold.
    destruct (lookup key d) as [x|] eqn:E.
    + apply (proj2 Ho). rewrite occurrences_rick. now apply lookup_occurs.
    + now apply search_loop_finds.
Qed.

Lemma search_once (key : string) (self : pydict) (v : value) :
  truthy v = true -> stored_under key self = [v] ->
  Pure._recursive_search self key = v.
Proof.
  intros Hv H. apply search_finds; [exact Hv|].
  unfold only_value. fold (stored_under key self). rewrite H. split.
  - now left.
  - intros v' [<-|[]]. reflexivity.
Qed.

Lemma search_top (key : string) (self : pydict) (v : value) :
  lookup key self = Some v -> Pure._recursive_search self key = v.
Proof. intros H. now rewrite search_unfold, H. Qed.

(** ** [get] and [has] *)

Lemma get_exact (self : pydict) (key : string) (v default : value) :
  Pure._recursive_search self key = v -> truthy v = true ->
  Pure.get self key default = v.
Proof.
  intros E Hv. unfold Pure.get. rewrite E, Hv. simpl. now rewrite Hv.
Qed.

Lemma get_order (self : pydict) (key : string) (default : value) :
  Pure.get self key default
  = if truthy (Pure._recursive_search self key)
    then Pure._recursive_search self key
    else if truthy (Pure._recursive_search self (lower key))
    then Pure._recursive_search self (lower key)
    else if truthy (Pure._recursive_search self (upper key))
    then Pure._recursive_search self (upper key)
    else default.
Proof.
  unfold Pure.get.
  destruct (truthy (Pure._recursive_search self key)) eqn:E1; simpl.
  - now rewrite E1.
  - destruct (truthy (Pure._recursive_search self (lower key))) eqn:E2;
      simpl.
    + now rewrite E2.
    + now destruct (truthy (Pure._recursive_search self (upper key))).
Qed.

Lemma truthy_internalized (deep : bool) (v : value) :
  distinct_keys v = true ->
  truthy (BasicRick.internalized deep v) = truthy v.
Proof.
  destruct v as [| | | |l|d|c d]; try reflexivity.
  - intros _. simpl. destruct deep; [|reflexivity]. now destruct l.
  - intros Hd. rewrite internalized_dict.
    rewrite iternalize_map by (now apply (distinct_keys_NoDup Basic)).
    now destruct d.
Qed.

Lemma pure_get_top_level (w : World) (M : pydict) (k : string)
    (v default : value) :
  mapping M = true -> lookup k M = Some v -> truthy v = true ->
  exists node,
    BasicRick.new w (BDict M) false = Ok (VRick Basic node) /\
    ((forall d, v <> VDict d) -> Pure.get node k default = v) /\
    (forall d, v = VDict d ->
       exists child, Pure.get node k default = VRick Basic child /\
                     Pure.dict child = d).
Proof.
  intros HM Hk Hv. unfold mapping in HM.
  apply andb_true_iff in HM as [Hp Hd].
  pose proof (distinct_keys_NoDup Basic M Hd) as Hnd.
  exists (BasicRick._iternalize [] M false).
  assert (Hin : In (k, v) M) by now apply lookup_In.
  assert (Hpv : plain v = true).
  { simpl in Hp. rewrite forallb_forall in Hp. apply (Hp _ Hin). }
  assert (Hdv : distinct_keys v = true).
  { simpl in Hd. apply andb_true_iff in Hd as [_ Hd].
    rewrite forallb_forall in Hd. apply (Hd _ Hin). }
  assert (Hget : Pure.get (BasicRick._iternalize [] M false) k default
                 = BasicRick.internalized false v).
  { apply get_exact.
    - apply search_top. rewrite iternalize_map by exact Hnd.
      now rewrite lookup_map_snd, Hk.
    - now rewrite truthy_internalized. }
  split; [reflexivity|]. split.
  - intros Hnot. rewrite Hget. destruct v; try reflexivity.
    now destruct (Hnot d).
  - intros d ->. rewrite Hget, internalized_dict.
    exists (BasicRick._iternalize [] d false). split; [reflexivity|].
    pose proof (dict_internalized false (VDict d) Hpv Hdv
                  (or_introl eq_refl)) as E.
    rewrite internalized_dict, dict_value_rick in E. congruence.
Qed.

Lemma pure_get_case_fallback (self : pydict) (K : string) (v default : value) :
  truthy v = true -> stored_under K self = [] ->
  (stored_under (lower K) self = [v] -> Pure.get self K default = v) /\
  (stored_under (lower K) self = [] -> stored_under (upper K) self = [v] ->
   Pure.get self K default = v) /\
  Pure.get self K default
  = if truthy (Pure._recursive_search self K)
    then Pure._recursive_search self K
    else if truthy (Pure._recursive_search self (lower K))
    then Pure._recursive_search self (lower K)
    else if truthy (Pure._recursive_search self (upper K))
    then Pure._recursive_search self (upper K)
    else default.
Proof.
  intros Hv Habs. repeat split.
  - intros Hlow. rewrite get_order.
    rewrite (search_absent K self Habs). simpl.
    rewrite (search_once (lower K) self v Hv Hlow). now rewrite Hv.
  - intros Hlow Hup. rewrite get_order.
    rewrite (search_absent K self Habs). simpl.
    rewrite (search_absent (lower K) self Hlow). simpl.
    rewrite (search_once (upper K) self v Hv Hup). now rewrite Hv.
  - apply get_order.
Qed.

Lemma pure_has_agrees_with_get (self : pydict) (k : string) (v s : value) :
  stored_under k self = [v] -> truthy v = true -> s <> v ->
  Pure.get self k s = v /\
  Pure.get self k s <> s /\
  Pure.has self k true = true /\
  (Pure.has self k false = true <-> contains k self = true).
Proof.
  intros Hs Hv Hne.
  pose proof (search_once k self v Hv Hs) as E.
  assert (G : Pure.get self k s = v) by now apply get_exact.
  repeat split.
  - exact G.
  - rewrite G. congruence.
  - unfold Pure.has. rewrite E, Hv. now destruct (contains k self).
  - unfold Pure.has. now destruct (contains k self).
  - unfold Pure.has. now intros ->.
Qed.

(** ** The placeholder resolver *)

Lemma lookup_update_same (d : pydict) (k : string) (v : value) :
  lookup k (update d k v) = Some v.
Proof.
  induction d as [|[k' v'] r IH]; simpl.
  - now rewrite String.eqb_refl.
  - destruct (String.eqb k' k) eqn:E; simpl; now rewrite E.
Qed.

Lemma lookup_update_other (d : pydict) (k k' : string) (v : value) :
  k <> k' -> lookup k (update d k' v) = lookup k d.
Proof.
  intros Hne.
  induction d as [|[k0 v0] r IH]; simpl.
  - destruct (String.eqb_spec k' k); [congruence|reflexivity].
  - destruct (String.eqb_spec k0 k') as [->|H0]; simpl.
    + destruct (String.eqb_spec k' k); [congruence|reflexivity].
    + now rewrite IH.
Qed.

Section Resolver.
Variable w : World.
Variables deep load_lambda : bool.

Lemma loop_keeps (l self self' : pydict) (k : string) :
  ExtendedPickleRick.loop w deep load_lambda
    (ExtendedPickleRick.construct w deep load_lambda) l self
  = (self', Ok tt) ->
  ~ In k (keys l) ->
  lookup k self' = lookup k self.
Proof.
  revert self.
  induction l as [|[k0 v0] r IH]; simpl; intros self E Hk.
  - now injection E as <-.
  - destruct (ExtendedPickleRick.internalized _ _ _ _ v0) as [x|e];
      [|discriminate].
    rewrite (IH _ E) by tauto.
    apply lookup_update_other. intros ->. tauto.
Qed.

Lemma loop_stores (l self self' : pydict) (k : string) (v : value) :
  ExtendedPickleRick.loop w deep load_lambda
    (ExtendedPickleRick.construct w deep load_lambda) l self
  = (self', Ok tt) ->
  NoDup (keys l) -> In (k, v) l ->
  exists x,
    ExtendedPickleRick.internalized w deep load_lambda
      (ExtendedPickleRick.construct w deep load_lambda) v = Ok x /\
    lookup k self' = Some x.
Proof.
  revert self.
  induction l as [|[k0 v0] r IH]; simpl; intros self E Hnd Hin; [tauto|].
  inversion Hnd as [|? ? Hk0 Hr]; subst.
  destruct (ExtendedPickleRick.internalized _ _ _ _ v0) as [x|e] eqn:Ex;
    [|discriminate].
  destruct Hin as [[= -> ->]|Hin].
  - exists x. split; [exact Ex|].
    rewrite (loop_keeps _ _ _ k E Hk0). apply lookup_update_same.
  - now apply (IH _ E).
Qed.

Lemma new_stores (M node : pydict) (k : string) (v : value) :
  ExtendedPickleRick.new w (BDict M) deep load_lambda
  = Ok (VRick Extended node) ->
  nodupb (keys M) = true -> lookup k M = Some v ->
  exists x,
    ExtendedPickleRick.internalized w deep load_lambda
      (ExtendedPickleRick.construct w deep load_lambda) v = Ok x /\
    lookup k node = Some x.
Proof.
  unfold ExtendedPickleRick.new, BasicRick.__init__,
    ExtendedPickleRick.iternalize_call, ExtendedPickleRick._iternalize.
  simpl.
  destruct (ExtendedPickleRick.loop w deep load_lambda
              (ExtendedPickleRick.construct w deep load_lambda) M [])
    as [self [[]|e]] eqn:E; [|discriminate].
  intros [= <-] Hnd Hk.
  apply (loop_stores M [] self k v E).
  - now apply nodupb_NoDup.
  - now apply lookup_In.
Qed.
End Resolver.

Lemma internalized_env (w : World) (deep load_lambda : bool)
    (construct : value -> result value) (v : pydict) (name : string) :
  lookup "type" v = Some (VStr "env") ->
  lookup "load" v = Some (VStr name) ->
  ExtendedPickleRick.internalized w deep load_lambda construct (VDict v)
  = Ok (env_value w name v).
Proof.
  intros Ht Hl. unfold ExtendedPickleRick.internalized,
    ExtendedPickleRick.has_type, ExtendedPickleRick.subscript, env_value.
  rewrite Ht. simpl.
  destruct (lookup "default" v) as [d|]; rewrite Hl; reflexivity.
Qed.

Lemma internalized_lambda (w : World) (deep load_lambda : bool)
    (construct : value -> result value) (v : pydict) (payload : value) :
  lookup "type" v = Some (VStr "lambda") ->
  lookup "load" v = Some payload ->
  ExtendedPickleRick.internalized w deep load_lambda construct (VDict v)
  = if load_lambda then py_eval w payload else Ok payload.
Proof.
  intros Ht Hl. unfold ExtendedPickleRick.internalized,
    ExtendedPickleRick.has_type, ExtendedPickleRick.subscript.
  rewrite Ht. simpl. rewrite Hl. reflexivity.
Qed.

Lemma new_single (w : World) (deep load_lambda : bool) (k : string)
    (v : value) :
  ExtendedPickleRick.new w (BDict [(k, v)]) deep load_lambda
  = match ExtendedPickleRick.internalized w deep load_lambda
            (ExtendedPickleRick.construct w deep load_lambda) v with
    | Ok x => Ok (VRick Extended [(k, x)])
    | Raise e => Raise e
    end.
Proof.
  unfold ExtendedPickleRick.new, BasicRick.__init__,
    ExtendedPickleRick.iternalize_call, ExtendedPickleRick._iternalize.
  simpl.
  now destruct (ExtendedPickleRick.internalized _ _ _ _ v).
Qed.

(** C6: built by the resolver variant from
    [{"x": {"type": "env", "load": "MY_VAR", "default": "fallback"}}]
    with [MY_VAR] unset, the node holds the string [fallback] under [x],
    not a child node.  In general an [env] placeholder is replaced by
    the value of the variable its [load] field names when that is set,
    by its [default] field when the variable is unset, and by [None]
    when there is no [default] either. *)
Theorem env_placeholder (w : World) (deep load_lambda : bool) :
  (getenv w "MY_VAR" = None ->
   ExtendedPickleRick.new w (BDict sample_env) deep load_lambda
   = Ok (VRick Extended [("x", VStr "fallback")])) /\
  (forall k v name,
     lookup "type" v = Some (VStr "env") ->
     lookup "load" v = Some (VStr name) ->
     ExtendedPickleRick.new w (BDict [(k, VDict v)]) deep load_lambda
     = Ok (VRick Extended [(k, env_value w name v)])) /\
  (forall M node k v name,
     nodupb (keys M) = true -> lookup k M = Some (VDict v) ->
     lookup "type" v = Some (VStr "env") ->
     lookup "load" v = Some (VStr name) ->
     ExtendedPickleRick.new w (BDict M) deep load_lambda
     = Ok (VRick Extended node) ->
     lookup k node = Some (env_value w name v)) /\
  (forall v name s, getenv w name = Some s -> env_value w name v = VStr s) /\
  (forall v name d,
     getenv w name = None -> lookup "default" v = Some d ->
     env_value w name v = d) /\
  (forall v name,
     getenv w name = None -> lookup "default" v = None ->
     env_value w name v = VNone).
Proof.
  assert (Hone : forall k v name,
     lookup "type" v = Some (VStr "env") ->
     lookup "load" v = Some (VStr name) ->
     ExtendedPickleRick.new w (BDict [(k, VDict v)]) deep load_lambda
     = Ok (VRick Extended [(k, env_value w name v)])).
  { intros k v name Ht Hl. rewrite new_single.
    now rewrite (internalized_env _ _ _ _ v name Ht Hl). }
  repeat split.
  - intros Hunset. unfold sample_env.
    rewrite (Hone "x" [("type", VStr "env"); ("load", VStr "MY_VAR");
                       ("default", VStr "fallback")] "MY_VAR"
               eq_refl eq_refl).
    unfold env_value. now rewrite Hunset.
  - exact Hone.
  - intros M node k v name Hnd Hk Ht Hl Hnew.
    destruct (new_stores w deep load_lambda M node k _ Hnew Hnd Hk)
      as [x [Ex Hx]].
    rewrite (internalized_env _ _ _ _ v name Ht Hl) in Ex.
    congruence.
  - intros v name s E. unfold env_value. now rewrite E.
  - intros v name d E Ed. unfold env_value. now rewrite E, Ed.
  - intros v name E Ed. unfold env_value. now rewrite E, Ed.
Qed.

Lemma env_placeholder_witness :
  ExtendedPickleRick.new bare_world (BDict sample_env) false false
  = Ok (VRick Extended [("x", VStr "fallback")]).
Proof.
  exact (proj1 (env_placeholder bare_world false false) eq_refl).
Defined.

Lemma pure_lambda_placeholder (w : World) (deep : bool) (k : string)
    (v : pydict) (payload : value) :
  lookup "type" v = Some (VStr "lambda") ->
  lookup "load" v = Some payload ->
  ExtendedPickleRick.new w (BDict [(k, VDict v)]) deep false
  = Ok (VRick Extended [(k, payload)]) /\
  ExtendedPickleRick.new w (BDict [(k, VDict v)]) deep true
  = match py_eval w payload with
    | Ok x => Ok (VRick Extended [(k, x)])
    | Raise e => Raise e
    end /\
  (forall M node,
     nodupb (keys M) = true -> lookup k M = Some (VDict v) ->
     ExtendedPickleRick.new w (BDict M) deep false
     = Ok (VRick Extended node) ->
     lookup k node = Some payload) /\
  (forall M node,
     nodupb (keys M) = true -> lookup k M = Some (VDict v) ->
     ExtendedPickleRick.new w (BDict M) deep true
     = Ok (VRick Extended node) ->
     exists x, py_eval w payload = Ok x /\ lookup k node = Some x).
Proof.
  intros Ht Hl. repeat split.
  - rewrite new_single.
    now rewrite (internalized_lambda _ _ _ _ v payload Ht Hl).
  - rewrite new_single.
    now rewrite (internalized_lambda _ _ _ _ v payload Ht Hl).
  - intros M node Hnd Hk Hnew.
    destruct (new_stores w deep false M node k _ Hnew Hnd Hk) as [x [Ex Hx]].
    rewrite (internalized_lambda _ _ _ _ v payload Ht Hl) in Ex.
    congruence.
  - intros M node Hnd Hk Hnew.
    destruct (new_stores w deep true M node k _ Hnew Hnd Hk) as [x [Ex Hx]].
    rewrite (internalized_lambda _ _ _ _ v payload Ht Hl) in Ex.
    now exists x.
Qed.

(** ** Construction *)

Lemma attempt_fails (deep : bool) (parsed : result value) (self : pydict) :
  loads_mapping parsed = false ->
  BasicRick.attempt (BasicRick.iternalize_call deep) parsed self
  = (self, false).
Proof.
  unfold BasicRick.attempt, BasicRick.iternalize_call.
  destruct parsed as [[| | | | | |]|]; simpl; intros H;
    reflexivity || discriminate H.
Qed.

Lemma attempt_outcome (deep : bool) (parsed : result value) (self : pydict) :
  exists self',
    BasicRick.attempt (BasicRick.iternalize_call deep) parsed self
    = (self', loads_mapping parsed).
Proof.
  unfold BasicRick.attempt, BasicRick.iternalize_call.
  destruct parsed as [[| | | | | |]|]; simpl; eexists; reflexivity.
Qed.

(** Built from a [dict], the constructor returns. *)
Lemma new_dict_returns (w : World) (deep : bool) (M : pydict) :
  exists node, BasicRick.new w (BDict M) deep = Ok node.
Proof. eexists. apply new_of_dict. Qed.

(** Built from a [str], the constructor returns or raises [ValueError]. *)
Lemma new_str_outcome (w : World) (deep : bool) (s : string) :
  (exists node, BasicRick.new w (BStr s) deep = Ok node) \/
  BasicRick.new w (BStr s) deep = Raise ValueError.
Proof.
  unfold BasicRick.new, BasicRick.__init__. simpl.
  match goal with
  | |- context [BasicRick.or_else ?a ?b []] =>
      destruct (BasicRick.or_else a b []) as [self [|]]
  end.
  - left. eexists. reflexivity.
  - now right.
Qed.

(** C3, at the failing input: when neither the YAML nor the JSON attempt
    on an open text stream gives a mapping, the constructor goes on to
    [os.path.isfile(base)] with the stream object and the [TypeError] of
    that call reaches the caller, not the [ValueError] of the last
    line. *)
Theorem stream_type_error (w : World) (content : string) (deep : bool) :
  loads_mapping (yaml_load w content) = false ->
  loads_mapping (json_loads w (yaml_rest w content)) = false ->
  BasicRick.new w (BStream content) deep = Raise TypeError.
Proof.
  intros Hy Hj. unfold BasicRick.new, BasicRick.__init__, BasicRick.or_else.
  rewrite (attempt_fails deep _ [] Hy).
  rewrite (attempt_fails deep _ [] Hj).
  reflexivity.
Qed.

Lemma stream_type_error_witness :
  BasicRick.new list_world (BStream "[1, 2]") false = Raise TypeError.
Proof.
  apply (stream_type_error list_world "[1, 2]" false); reflexivity.
Defined.

(** ** The YAML round trip *)

(** ** The resolver against the base builder *)

(** With [deep] off the difference does not arise. *)

Lemma loop_deconstructs (w : World) (load_lambda : bool) (l self : pydict) :
  Forall (fun kv => exists y,
            ExtendedPickleRick.internalized w false load_lambda
              (ExtendedPickleRick.construct w false load_lambda) (snd kv)
            = Ok y /\ Pure.dict_value y = snd kv) l ->
  NoDup (keys self ++ keys l)%list ->
  exists ys,
    ExtendedPickleRick.loop w false load_lambda
      (ExtendedPickleRick.construct w false load_lambda) l self
    = ((self ++ ys)%list, Ok tt) /\
    map (fun kv => (fst kv, Pure.dict_value (snd kv))) ys = l.
Proof.
  intros H. revert self.
  induction H as [|[k x] r [y [Ey Hy]] _ IH]; intros self Hnd.
  - exists []. simpl. now rewrite app_nil_r.
  - simpl in Ey, Hy. simpl. rewrite Ey.
    assert (Hk : ~ In k (keys self)).
    { intros Hin. apply NoDup_remove_2 in Hnd. apply Hnd.
      apply in_or_app. now left. }
    rewrite (update_fresh self k y Hk).
    destruct (IH (self ++ [(k, y)])%list) as [ys [E Hys]].
    { unfold keys in *. rewrite map_app. simpl.
      rewrite <- app_assoc. exact Hnd. }
    exists ((k, y) :: ys). split.
    + rewrite E. now rewrite <- app_assoc.
    + simpl. now rewrite Hy, Hys.
Qed.

Lemma construct_deconstructs (w : World) (load_lambda : bool) (v : value) :
  plain v = true -> distinct_keys v = true -> placeholder_free v = true ->
  forall d, v = VDict d ->
  exists fields,
    ExtendedPickleRick.construct w false load_lambda v
    = Ok (VRick Extended fields) /\
    Pure.dict fields = d.
Proof.
  induction v as [| | | |l IH|d0 IH|c d0 IH] using value_rect';
    intros Hp Hd Hf d [=]. subst d0.
  pose proof (distinct_keys_NoDup Basic d Hd) as Hnd.
  simpl in Hp, Hd, Hf. apply andb_true_iff in Hd as [_ Hd].
  rewrite forallb_forall in Hp, Hd, Hf. rewrite Forall_forall in IH.
  destruct (loop_deconstructs w load_lambda d []) as [ys [E Hys]].
  - apply Forall_forall. intros [k x] Hin.
    specialize (Hp _ Hin). specialize (Hd _ Hin). specialize (Hf _ Hin).
    specialize (IH _ Hin). simpl in Hp, Hd, Hf, IH |- *.
    apply andb_true_iff in Hf as [Hx Hf].
    destruct x as [| | | |l|d'|c d']; try (eexists; split; reflexivity).
    + apply andb_true_iff in Hx as [He Hl].
      apply negb_true_iff in He, Hl.
      destruct (IH Hp Hd Hf d' eq_refl) as [fields [Ec Hfields]].
      exists (VRick Extended fields). split.
      * unfold ExtendedPickleRick.internalized. now rewrite He, Hl.
      * rewrite dict_value_rick. now rewrite Hfields.
    + discriminate Hp.
  - exact Hnd.
  - exists ys. split.
    + simpl. now rewrite E.
    + rewrite dict_map.
      * exact Hys.
      * rewrite <- Hys in Hnd. now rewrite keys_map_snd in Hnd.
Qed.

(** On a mapping of plain data without placeholders, and with [deep]
    off, the resolver variant and the base builder build nodes with the
    same [dict()], the mapping itself. *)
Lemma resolver_refines_shallow (w : World) (load_lambda : bool) (M : pydict) :
  mapping M = true -> placeholder_free (VDict M) = true ->
  exists nb ne,
    BasicRick.new w (BDict M) false = Ok (VRick Basic nb) /\
    ExtendedPickleRick.new w (BDict M) false load_lambda
    = Ok (VRick Extended ne) /\
    Pure.dict nb = M /\ Pure.dict ne = M.
Proof.
  intros HM Hf. unfold mapping in HM.
  apply andb_true_iff in HM as [Hp Hd].
  destruct (construct_deconstructs w load_lambda (VDict M) Hp Hd Hf M eq_refl)
    as [ne [Ec Hne]].
  exists (BasicRick._iternalize [] M false), ne.
  repeat split.
  - unfold ExtendedPickleRick.new, BasicRick.__init__,
      ExtendedPickleRick.iternalize_call, ExtendedPickleRick._iternalize.
    simpl in Ec |- *.
    destruct (ExtendedPickleRick.loop w false load_lambda
                (ExtendedPickleRick.construct w false load_lambda) M [])
      as [self [[]|e]]; [|discriminate]. 
    now injection Ec as ->.
  - pose proof (dict_internalized false (VDict M) Hp Hd (or_introl eq_refl))
      as E.
    rewrite internalized_dict, dict_value_rick in E. congruence.
  - exact Hne.
Qed.

(** ** Further properties of the constructors *)

Lemma init_str_outcome (w : World)
    (method : value -> pydict -> pydict * result unit)
    (s : string) (self : pydict) :
  exists self',
    BasicRick.__init__ w method (BStr s) self = (self', Ok tt) \/
    BasicRick.__init__ w method (BStr s) self = (self', Raise ValueError).
Proof.
  unfold BasicRick.__init__. simpl.
  match goal with
  | |- context [BasicRick.or_else ?a ?b self] =>
      destruct (BasicRick.or_else a b self) as [self' [|]]
  end; exists self'; [now left|now right].
Qed.

(** X2: the build keeps the keys of the mapping, in their order, and so
    the number of fields. *)
Theorem build_keeps_keys (deep : bool) (M : pydict) :
  nodupb (keys M) = true ->
  keys (BasicRick._iternalize [] M deep) = keys M /\
  BasicRick.__len__ (BasicRick._iternalize [] M deep) = List.length M.
Proof.
  intros Hnd. apply nodupb_NoDup in Hnd.
  rewrite iternalize_map by exact Hnd. split.
  - apply keys_map_snd.
  - unfold BasicRick.__len__. apply length_map.
Qed.

Lemma build_keeps_keys_witness :
  keys (BasicRick._iternalize [] sample_with_list true)
  = keys sample_with_list /\
  BasicRick.__len__ (BasicRick._iternalize [] sample_with_list true)
  = List.length sample_with_list.
Proof.
  apply (build_keeps_keys true sample_with_list). reflexivity.
Defined.

Lemma pure_dict_of_shallow_build (M : pydict) :
  mapping M = true ->
  Pure.dict (BasicRick._iternalize [] M false) = M.
Proof.
  intros HM. unfold mapping in HM. apply andb_true_iff in HM as [Hp Hd].
  pose proof (dict_internalized false (VDict M) Hp Hd (or_introl eq_refl))
    as E.
  rewrite internalized_dict, dict_value_rick in E. congruence.
Qed.

(** ** Further properties of [get] and [has] *)

Lemma search_stored (key : string) (self : pydict) :
  Pure._recursive_search self key = VNone \/
  In (Pure._recursive_search self key) (stored_under key self).
Proof. exact (search_occurs key (VDict self)). Qed.

Lemma pure_get_sound (self : pydict) (key : string) (default : value) :
  Pure.get self key default = default \/
  In (Pure.get self key default)
     (stored_under key self ++ stored_under (lower key) self
        ++ stored_under (upper key) self)%list.
Proof.
  rewrite get_order.
  destruct (truthy (Pure._recursive_search self key)) eqn:E1.
  - right. destruct (search_stored key self) as [E|E].
    + rewrite E in E1. discriminate.
    + apply in_or_app. now left.
  - destruct (truthy (Pure._recursive_search self (lower key))) eqn:E2.
    + right. destruct (search_stored (lower key) self) as [E|E].
      * rewrite E in E2. discriminate.
      * apply in_or_app. right. apply in_or_app. now left.
    + destruct (truthy (Pure._recursive_search self (upper key))) eqn:E3.
      * right. destruct (search_stored (upper key) self) as [E|E].
        -- rewrite E in E3. discriminate.
        -- apply in_or_app. right. apply in_or_app. now right.
      * now left.
Qed.

Lemma pure_get_truthy_or_default (self : pydict) (key : string)
    (default : value) :
  Pure.get self key default = default \/
  truthy (Pure.get self key default) = true.
Proof.
  rewrite get_order.
  destruct (truthy (Pure._recursive_search self key)) eqn:E1;
    [now right|].
  destruct (truthy (Pure._recursive_search self (lower key))) eqn:E2;
    [now right|].
  destruct (truthy (Pure._recursive_search self (upper key))) eqn:E3;
    [now right|now left].
Qed.

Lemma pure_get_missing (self : pydict) (key : string) (default : value) :
  stored_under key self = [] ->
  stored_under (lower key) self = [] ->
  stored_under (upper key) self = [] ->
  Pure.get self key default = default.
Proof.
  intros H1 H2 H3. rewrite get_order.
  now rewrite (search_absent _ _ H1), (search_absent _ _ H2),
    (search_absent _ _ H3).
Qed.

Lemma pure_get_falsy_top_level (self : pydict) (key : string)
    (v default : value) :
  lookup key self = Some v -> truthy v = false ->
  lower key = key -> stored_under (upper key) self = [] ->
  Pure.get self key default = default /\
  Pure.has self key false = true.
Proof.
  intros Hk Hv Hlow Hup. split.
  - rewrite get_order, Hlow.
    rewrite (search_top key self v Hk), Hv.
    now rewrite (search_absent _ _ Hup).
  - unfold Pure.has, contains. now rewrite Hk.
Qed.

Lemma pure_has_deep_sound (self : pydict) (key : string) :
  (Pure.has self key false = true ->
   Pure.has self key true = true) /\
  (Pure.has self key true = true -> stored_under key self <> []).
Proof.
  unfold Pure.has, contains. split.
  - now destruct (lookup key self).
  - destruct (lookup key self) as [x|] eqn:E.
    + intros _ Hnil. apply lookup_occurs in E. rewrite Hnil in E.
      destruct E.
    + simpl.
      destruct (truthy (Pure._recursive_search self key)) eqn:Et;
        [|discriminate].
      intros _ Hnil. destruct (search_stored key self) as [E'|E'].
      * rewrite E' in Et. discriminate.
      * rewrite Hnil in E'. destruct E'.
Qed.

(** ** Field access *)

Lemma length_update (self : pydict) (key : string) (item : value) :
  List.length (update self key item)
  = if contains key self then List.length self else S (List.length self).
Proof.
  unfold contains.
  induction self as [|[k v] r IH]; simpl; [reflexivity|].
  destruct (String.eqb k key); simpl; [reflexivity|].
  rewrite IH. now destruct (lookup key r).
Qed.

Lemma pure_setitem_getitem (self : pydict) (key : string) (item : value) :
  BasicRick.__getitem__ (BasicRick.__setitem__ self key item) key = Ok item /\
  (forall k, k <> key ->
     BasicRick.__getitem__ (BasicRick.__setitem__ self key item) k
     = BasicRick.__getitem__ self k) /\
  BasicRick.__len__ (BasicRick.__setitem__ self key item)
  = (if contains key self then BasicRick.__len__ self
     else S (BasicRick.__len__ self)) /\
  (forall default, truthy item = true ->
     Pure.get (BasicRick.__setitem__ self key item) key default = item) /\
  (forall k, contains k self = false ->
     BasicRick.__getitem__ self k = Raise KeyError).
Proof.
  unfold BasicRick.__getitem__, BasicRick.__setitem__, BasicRick.__len__.
  repeat split.
  - now rewrite lookup_update_same.
  - intros k Hk. now rewrite lookup_update_other.
  - apply length_update.
  - intros default Ht. apply get_exact; [|exact Ht].
    apply search_top, lookup_update_same.
  - intros k. unfold contains. now destruct (lookup k self).
Qed.

(** ** [keys()], [values()] and [items()] *)

Lemma prefix_app (a b : string) : String.prefix a (a ++ b) = true.
Proof.
  induction a as [|c a IH]; simpl.
  - now destruct b.
  - destruct (ascii_dec c c) as [_|H]; [exact IH|now destruct H].
Qed.

Lemma is_substring_app (pre sub post : string) :
  is_substring sub (pre ++ sub ++ post) = true.
Proof.
  induction pre as [|c pre IH].
  - change ("" ++ sub ++ post) with (sub ++ post).
    pose proof (prefix_app sub post) as H.
    destruct (sub ++ post); cbn [is_substring]; now rewrite H.
  - cbn [append is_substring]. rewrite IH. apply orb_true_r.
Qed.

Lemma substring_app_tail (pre suffix : string) :
  substring (String.length pre) (String.length suffix) (pre ++ suffix)
  = suffix.
Proof.
  induction pre as [|c pre IH]; simpl.
  - induction suffix as [|c s IHs]; simpl; [reflexivity|now rewrite IHs].
  - exact IH.
Qed.

Lemma ends_with_app (pre suffix : string) :
  ends_with suffix (pre ++ suffix) = true.
Proof.
  unfold ends_with.
  assert (L : String.length (pre ++ suffix)
              = (String.length pre + String.length suffix)%nat).
  { induction pre as [|c pre IH]; simpl; [reflexivity|now rewrite IH]. }
  rewrite L.
  replace (String.length pre + String.length suffix
           - String.length suffix)%nat with (String.length pre) by lia.
  rewrite substring_app_tail, String.eqb_refl.
  rewrite andb_true_r. apply Nat.leb_le. lia.
Qed.

Lemma getitem_nth (self : pydict) :
  NoDup (keys self) ->
  forall kv, In kv self -> BasicRick.__getitem__ self (fst kv) = Ok (snd kv).
Proof.
  intros Hnd [k v] Hin. unfold BasicRick.__getitem__. simpl.
  now rewrite (In_lookup k self v Hnd Hin).
Qed.

Lemma map_filter_fst (f : string -> bool) (self : pydict) :
  filter f (map fst self) = map fst (filter (fun kv => f (fst kv)) self).
Proof.
  induction self as [|[k v] r IH]; simpl; [reflexivity|].
  destruct (f k); simpl; now rewrite IH.
Qed.

Lemma pure_keys_values_aligned (c : cls) (self : pydict) :
  NoDup (keys self) ->
  let shown := filter (fun kv => negb (BasicRick.hidden c (fst kv))) self in
  Pure.keys c self = map fst shown /\
  Pure.values c self = map (fun kv => Ok (snd kv)) shown /\
  Pure.items self = map (fun kv => (fst kv, Ok (snd kv))) self /\
  (forall pre post,
     ~ In (pre ++ cls_name c ++ post) (Pure.keys c self)) /\
  (forall pre, ~ In (pre ++ "__n") (Pure.keys c self)).
Proof.
  intros Hnd shown. subst shown.
  unfold Pure.keys, Pure.values, Pure.items.
  repeat split.
  - apply map_filter_fst.
  - rewrite map_filter_fst, map_map.
    apply map_ext_in. intros kv Hin.
    apply filter_In in Hin as [Hin _].
    now apply getitem_nth.
  - rewrite map_map. apply map_ext_in. intros kv Hin.
    now rewrite (getitem_nth self Hnd kv Hin).
  - intros pre post Hin. apply filter_In in Hin as [_ H].
    unfold BasicRick.hidden in H.
    now rewrite is_substring_app in H.
  - intros pre Hin. apply filter_In in Hin as [_ H].
    unfold BasicRick.hidden in H.
    rewrite ends_with_app in H. now rewrite orb_true_r in H.
Qed.

(** ** Equality of nodes *)

Lemma eqb_head (a b : ascii) (r s : string) :
  Ascii.eqb a b = false -> String.eqb (String a r) (String b s) = false.
Proof. intros H. simpl. now rewrite H. Qed.

Lemma repr_int_head (z : Z) :
  exists a r, repr_int z = String a r /\
              Ascii.eqb "B" a = false /\ Ascii.eqb "E" a = false.
Proof.
  unfold repr_int.
  destruct (Z.to_int z) as [u|u]; destruct u; simpl;
    eexists; eexists; (split; [reflexivity|split; reflexivity]).
Qed.

Lemma repr_head (v : value) :
  match v with VRick _ _ => False | _ => True end ->
  exists a r, repr v = String a r /\
              Ascii.eqb "B" a = false /\ Ascii.eqb "E" a = false.
Proof.
  destruct v as [|[|]| z | s | l | d | c d]; intros H;
    try (simpl; eexists; eexists;
         (split; [reflexivity|split; reflexivity])).
  - apply repr_int_head.
  - simpl. unfold repr_str.
    destruct (has_char squote s && negb (has_char dquote s));
      eexists; eexists; (split; [reflexivity|split; reflexivity]).
  - destruct H.
Qed.

Lemma pure_eq_needs_a_node (c : cls) (self : pydict) :
  BasicRick.__eq__ c self (VRick c self) = true /\
  (forall v, match v with VRick _ _ => False | _ => True end ->
             BasicRick.__eq__ c self v = false) /\
  BasicRick.__eq__ c self (VDict (Pure.dict self)) = false /\
  (forall c' self', c <> c' ->
     BasicRick.__eq__ c self (VRick c' self') = false).
Proof.
  unfold BasicRick.__eq__, BasicRick.__repr__.
  assert (Hv : forall v, match v with VRick _ _ => False | _ => True end ->
                         String.eqb (repr (VRick c self)) (repr v) = false).
  { intros v Hv. destruct (repr_head v Hv) as [a [r [E [HB HE]]]].
    rewrite E. destruct c.
    - assert (R : exists t, repr (VRick Basic self) = String "B" t)
        by (eexists; reflexivity).
      destruct R as [t ->]. now apply eqb_head.
    - assert (R : exists t, repr (VRick Extended self) = String "E" t)
        by (eexists; reflexivity).
      destruct R as [t ->]. now apply eqb_head. }
  repeat split.
  - apply String.eqb_refl.
  - exact Hv.
  - now apply Hv.
  - intros c' self' Hne. destruct c, c'; try (now destruct Hne); reflexivity.
Qed.

(** ** Serialization *)

Lemma Forall_update (P : value -> Prop) (d : pydict) (k : string)
    (v : value) :
  Forall (fun kv => P (snd kv)) d -> P v ->
  Forall (fun kv => P (snd kv)) (update d k v).
Proof.
  induction 1 as [|[k' v'] r Hh Hr IH]; simpl; intros Hv.
  - now repeat constructor.
  - destruct (String.eqb k' k); constructor; auto.
Qed.

Lemma dict_values_deconstructed (self acc : pydict) :
  Forall (fun kv => match snd kv with VRick _ _ => False | _ => True end)
         acc ->
  Forall (fun kv => match snd kv with VRick _ _ => False | _ => True end)
         (fold_left
            (fun d kv => update d (fst kv) (Pure.dict_value (snd kv)))
            self acc).
Proof.
  revert acc.
  induction self as [|[k0 v0] r IH]; simpl; intros acc Hacc; [exact Hacc|].
  apply IH.
  apply (Forall_update
           (fun v => match v with VRick _ _ => False | _ => True end));
    [exact Hacc|].
  now destruct v0.
Qed.

Lemma pure_dict_has_no_direct_node (self : pydict) (k : string) (c : cls)
    (fields : pydict) :
  lookup k (Pure.dict self) <> Some (VRick c fields).
Proof.
  intros H. apply lookup_In in H.
  pose proof (dict_values_deconstructed self [] (Forall_nil _)) as F.
  rewrite Forall_forall in F. exact (F _ H).
Qed.

(** ** Placeholders that cannot be resolved *)

Lemma internalized_no_load (w : World) (deep load_lambda : bool)
    (construct : value -> result value) (v : pydict) :
  lookup "type" v = Some (VStr "env") \/
  lookup "type" v = Some (VStr "lambda") ->
  lookup "load" v = None ->
  ExtendedPickleRick.internalized w deep load_lambda construct (VDict v)
  = Raise KeyError.
Proof.
  intros Ht Hl. unfold ExtendedPickleRick.internalized,
    ExtendedPickleRick.has_type, ExtendedPickleRick.subscript.
  destruct Ht as [Ht|Ht]; rewrite Ht; simpl; rewrite Hl.
  - now destruct (lookup "default" v).
  - now destruct load_lambda.
Qed.

(** X14: a mapping that holds, under one of its keys, an [env] or
    [lambda] placeholder without a [load] field cannot be built from a
    [dict] by the resolver variant: the constructor raises; alone in
    the mapping, the placeholder raises [KeyError]. *)
Theorem placeholder_without_load (w : World) (deep load_lambda : bool)
    (k : string) (v : pydict) :
  lookup "type" v = Some (VStr "env") \/
  lookup "type" v = Some (VStr "lambda") ->
  lookup "load" v = None ->
  ExtendedPickleRick.new w (BDict [(k, VDict v)]) deep load_lambda
  = Raise KeyError /\
  (forall M, nodupb (keys M) = true -> lookup k M = Some (VDict v) ->
     exists e,
       ExtendedPickleRick.new w (BDict M) deep load_lambda = Raise e).
Proof.
  intros Ht Hl. split.
  - rewrite new_single.
    now rewrite (internalized_no_load w deep load_lambda _ v Ht Hl).
  - intros M Hnd Hk.
    destruct (ExtendedPickleRick.new w (BDict M) deep load_lambda)
      as [node|e] eqn:E; [|now exists e].
    assert (Hn : exists fields, node = VRick Extended fields).
    { unfold ExtendedPickleRick.new in E.
      destruct (BasicRick.__init__ _ _ _ _) as [self [[]|e]];
        [|discriminate].
      injection E as <-. now exists self. }
    destruct Hn as [fields ->].
    destruct (new_stores w deep load_lambda M fields k _ E Hnd Hk)
      as [x [Ex _]].
    rewrite (internalized_no_load w deep load_lambda _ v Ht Hl) in Ex.
    discriminate.
Qed.

Lemma placeholder_without_load_witness :
  ExtendedPickleRick.new bare_world
    (BDict [("x", VDict [("type", VStr "env")])]) false false
  = Raise KeyError.
Proof.
  exact (proj1 (placeholder_without_load bare_world false false "x"
                  [("type", VStr "env")] (or_introl eq_refl) eq_refl)).
Defined.

Lemma pure_resolver_agrees_when_shallow (w : World) (load_lambda : bool)
    (M : pydict) :
  mapping M = true -> placeholder_free (VDict M) = true ->
  exists nb ne,
    BasicRick.new w (BDict M) false = Ok (VRick Basic nb) /\
    ExtendedPickleRick.new w (BDict M) false load_lambda
    = Ok (VRick Extended ne) /\
    Pure.dict nb = M /\ Pure.dict ne = M.
Proof. apply resolver_refines_shallow. Qed.

(** ** Iteration *)

Lemma lookup_app_last (fields : pydict) (k : string) (x : value) :
  lookup k fields = None -> lookup k (fields ++ [(k, x)])%list = Some x.
Proof.
  induction fields as [|[k' v'] r IH]; simpl.
  - now rewrite String.eqb_refl.
  - destruct (String.eqb k' k); [discriminate|exact IH].
Qed.

Lemma lookup_app_first (fields rest : pydict) (k : string) (v : value) :
  lookup k fields = Some v -> lookup k (fields ++ rest)%list = Some v.
Proof.
  induction fields as [|[k' v'] r IH]; simpl; [discriminate|].
  destruct (String.eqb k' k); [trivial|exact IH].
Qed.

Lemma update_app_last (fields : pydict) (k : string) (x y : value) :
  lookup k fields = None ->
  update (fields ++ [(k, x)])%list k y = (fields ++ [(k, y)])%list.
Proof.
  induction fields as [|[k' v'] r IH]; simpl.
  - now rewrite String.eqb_refl.
  - destruct (String.eqb k' k); [discriminate|].
    intros H. now rewrite IH.
Qed.

Lemma hidden_cursor (c : cls) : BasicRick.hidden c BasicRick.cursor = true.
Proof. now destruct c. Qed.

Lemma cursor_fresh (c : cls) (fields : pydict) :
  (forall k, In k (keys fields) -> BasicRick.hidden c k = false) ->
  lookup BasicRick.cursor fields = None.
Proof.
  intros H. apply lookup_None. intros Hin.
  apply H in Hin. rewrite hidden_cursor in Hin. discriminate.
Qed.

Lemma exhaust_S (fuel : nat) (c : cls) (self : pydict) :
  BasicRick.exhaust (S fuel) c self
  = match BasicRick.__next__ c self with
    | (self', Returns obj) =>
        match BasicRick.exhaust fuel c self' with
        | (self'', Some objs) => (self'', Some (obj :: objs))
        | (self'', None) => (self'', None)
        end
    | (self', StopIteration) => (self', Some [])
    | (self', _) => (self', None)
    end.
Proof. reflexivity. Qed.

Section Iteration.
Variable c : cls.
Variable fields : pydict.
Hypothesis distinct : NoDup (keys fields).
Hypothesis shown : forall k, In k (keys fields) -> BasicRick.hidden c k = false.

Lemma next_returns (i : nat) (k : string) (v : value) :
  nth_error fields i = Some (k, v) ->
  BasicRick.__next__ c
    (fields ++ [(BasicRick.cursor, VInt (Z.of_nat i))])%list
  = ((fields ++ [(BasicRick.cursor, VInt (Z.of_nat (S i)))])%list,
     Returns v).
Proof.
  intros Hi.
  pose proof (cursor_fresh c fields shown) as Hc.
  assert (Hlt : (i < List.length fields)%nat).
  { apply nth_error_Some. congruence. }
  assert (Hin : In (k, v) fields) by (eapply nth_error_In; eassumption).
  assert (Hk : BasicRick.hidden c k = false).
  { apply shown. now apply (in_map fst) in Hin. }
  assert (Hidx : py_index
                   (map fst (fields ++ [(BasicRick.cursor,
                                         VInt (Z.of_nat i))])%list)
                   (Z.of_nat i) = Some k).
  { unfold py_index.
    replace (0 <=? Z.of_nat i)%Z with true
      by (symmetry; apply Z.leb_le; lia).
    rewrite Nat2Z.id, map_app, nth_error_app1 by (now rewrite length_map).
    now rewrite nth_error_map, Hi. }
  unfold BasicRick.__next__.
  rewrite (lookup_app_last fields _ _ Hc). cbn [BasicRick.as_int].
  replace (Z.of_nat i <? _)%Z with true
    by (symmetry; apply Z.ltb_lt; rewrite length_app; simpl; lia).
  rewrite Hidx, Hk.
  replace (Z.of_nat i <? _)%Z with true
    by (symmetry; apply Z.ltb_lt; rewrite length_app; simpl; lia).
  rewrite Hidx.
  rewrite (lookup_app_first fields _ k v (In_lookup k fields v distinct Hin)).
  rewrite (update_app_last fields _ _ _ Hc).
  now replace (Z.of_nat i + 1)%Z with (Z.of_nat (S i)) by lia.
Qed.

Lemma next_stops :
  BasicRick.__next__ c
    (fields ++ [(BasicRick.cursor,
                 VInt (Z.of_nat (List.length fields)))])%list
  = ((fields ++ [(BasicRick.cursor,
                  VInt (Z.of_nat (S (List.length fields))))])%list,
     StopIteration).
Proof.
  pose proof (cursor_fresh c fields shown) as Hc.
  unfold BasicRick.__next__.
  rewrite (lookup_app_last fields _ _ Hc). cbn [BasicRick.as_int].
  replace (Z.of_nat (List.length fields) <? _)%Z with true
    by (symmetry; apply Z.ltb_lt; rewrite length_app; simpl; lia).
  assert (Hidx : py_index
                   (map fst (fields ++ [(BasicRick.cursor,
                       VInt (Z.of_nat (List.length fields)))])%list)
                   (Z.of_nat (List.length fields))
                 = Some BasicRick.cursor).
  { unfold py_index.
    replace (0 <=? Z.of_nat (List.length fields))%Z with true
      by (symmetry; apply Z.leb_le; lia).
    rewrite Nat2Z.id, map_app, nth_error_app2 by (rewrite length_map; lia).
    rewrite length_map, Nat.sub_diag. reflexivity. }
  rewrite Hidx, hidden_cursor.
  rewrite (update_app_last fields _ _ _ Hc).
  replace (Z.of_nat (List.length fields) + 1 <? _)%Z with false
    by (symmetry; apply Z.ltb_ge; rewrite length_app; simpl; lia).
  now replace (Z.of_nat (List.length fields) + 1)%Z
    with (Z.of_nat (S (List.length fields))) by lia.
Qed.

Lemma exhaust_from (n i : nat) :
  (i + n = List.length fields)%nat ->
  BasicRick.exhaust (S n) c
    (fields ++ [(BasicRick.cursor, VInt (Z.of_nat i))])%list
  = ((fields ++ [(BasicRick.cursor,
                  VInt (Z.of_nat (S (List.length fields))))])%list,
     Some (map snd (skipn i fields))).
Proof.
  revert i.
  induction n as [|n IH]; intros i Hi.
  - assert (i = List.length fields) by lia. subst i.
    rewrite exhaust_S, next_stops.
    now rewrite skipn_all.
  - destruct (nth_error fields i) as [[k v]|] eqn:E.
    + rewrite exhaust_S, (next_returns i k v E).
      assert (Hs : skipn i fields = (k, v) :: skipn (S i) fields).
      { clear - E. revert i E.
        induction fields as [|x r IHr]; intros [|i] E;
          try discriminate; simpl in *.
        - now injection E as ->.
        - now apply IHr. }
      rewrite (IH (S i)) by lia.
      now rewrite Hs.
    + apply nth_error_None in E. lia.
Qed.
End Iteration.

Lemma iter_appends (self : pydict) :
  lookup BasicRick.cursor self = None ->
  BasicRick.__iter__ self = (self ++ [(BasicRick.cursor, VInt 0)])%list.
Proof.
  intros H. unfold BasicRick.__iter__. apply update_fresh.
  now apply lookup_None.
Qed.

(** X16: on a node whose field names are distinct and none of which
    contains the class name or ends in [__n], a [for] loop over the node
    meets the values of the fields, in their order, and stops after as
    many calls of [__next__] as there are fields plus one; a second loop
    over the same node meets the same values. *)
Theorem iteration_yields_values (c : cls) (fields : pydict) :
  NoDup (keys fields) ->
  (forall k, In k (keys fields) -> BasicRick.hidden c k = false) ->
  let after :=
    (fields ++ [(BasicRick.cursor,
                 VInt (Z.of_nat (S (List.length fields))))])%list in
  BasicRick.for_loop (S (List.length fields)) c fields
  = (after, Some (map snd fields)) /\
  BasicRick.for_loop (S (List.length fields)) c after
  = (after, Some (map snd fields)).
Proof.
  intros Hnd Hshown after. subst after.
  pose proof (cursor_fresh c fields Hshown) as Hc.
  unfold BasicRick.for_loop. split.
  - rewrite (iter_appends fields Hc).
    apply (exhaust_from c fields Hnd Hshown (List.length fields) 0).
    reflexivity.
  - unfold BasicRick.__iter__.
    rewrite (update_app_last fields _ _ _ Hc).
    apply (exhaust_from c fields Hnd Hshown (List.length fields) 0).
    reflexivity.
Qed.

Lemma iteration_yields_values_witness :
  BasicRick.for_loop 3 Basic sample_nested
  = ((sample_nested ++ [(BasicRick.cursor, VInt 3)])%list,
     Some [VDict [("b", VInt 1)]; VStr "x"]).
Proof.
  apply (iteration_yields_values Basic sample_nested).
  - repeat constructor; simpl; intuition discriminate.
  - simpl. intros k [<-|[<-|[]]]; reflexivity.
Defined.

Lemma pure_iter_leaves_cursor (c : cls) (self : pydict) :
  lookup BasicRick.cursor self = None ->
  BasicRick.__len__ (BasicRick.__iter__ self) = S (BasicRick.__len__ self) /\
  lookup BasicRick.cursor (Pure.dict (BasicRick.__iter__ self))
  = Some (VInt 0) /\
  Pure.keys c (BasicRick.__iter__ self) = Pure.keys c self.
Proof.
  intros Hc. rewrite (iter_appends self Hc). repeat split.
  - unfold BasicRick.__len__. rewrite length_app. simpl. lia.
  - unfold Pure.dict. rewrite fold_left_app. simpl.
    apply lookup_update_same.
  - unfold Pure.keys. rewrite map_app, filter_app. simpl.
    rewrite hidden_cursor. simpl. apply app_nil_r.
Qed.

(** ** The resolver on mappings without placeholders *)

Lemma relabel_plain (v : value) : plain v = true -> relabel v = v.
Proof.
  induction v as [| | | |l IH|d IH|c d IH] using value_rect';
    intros Hp; try reflexivity.
  - simpl in Hp |- *. rewrite forallb_forall in Hp.
    f_equal. apply map_id_on.
    rewrite Forall_forall in IH |- *. intros x Hx. apply IH; auto.
  - simpl in Hp |- *. rewrite forallb_forall in Hp.
    f_equal. apply map_id_on.
    rewrite Forall_forall in IH |- *. intros [k x] Hx. simpl.
    f_equal. apply (IH (k, x) Hx). apply (Hp (k, x) Hx).
  - discriminate.
Qed.

Lemma loop_maps (w : World) (deep load_lambda : bool) (g : value -> value)
    (l self : pydict) :
  Forall (fun kv =>
            ExtendedPickleRick.internalized w deep load_lambda
              (ExtendedPickleRick.construct w deep load_lambda) (snd kv)
            = Ok (g (snd kv))) l ->
  NoDup (keys self ++ keys l)%list ->
  ExtendedPickleRick.loop w deep load_lambda
    (ExtendedPickleRick.construct w deep load_lambda) l self
  = ((self ++ map (fun kv => (fst kv, g (snd kv))) l)%list, Ok tt).
Proof.
  intros H. revert self.
  induction H as [|[k x] r Hx _ IH]; intros self Hnd; simpl.
  - now rewrite app_nil_r.
  - simpl in Hx. rewrite Hx.
    assert (Hk : ~ In k (keys self)).
    { intros Hin. apply NoDup_remove_2 in Hnd. apply Hnd.
      apply in_or_app. now left. }
    rewrite (update_fresh self k _ Hk), IH.
    + now rewrite <- app_assoc.
    + unfold keys in *. rewrite map_app. simpl.
      rewrite <- app_assoc. exact Hnd.
Qed.

Lemma new_list_maps (construct : value -> result value)
    (h : value -> value) (l : list value) :
  Forall (fun i => forall di, i = VDict di -> construct i = Ok (h i)) l ->
  ExtendedPickleRick.new_list construct l
  = Ok (map (fun i => match i with VDict _ => h i | _ => i end) l).
Proof.
  induction 1 as [|i r Hi _ IH]; simpl; [reflexivity|].
  rewrite IH.
  destruct i; try reflexivity.
  now rewrite (Hi d eq_refl).
Qed.

(** What the resolver stores for a value it does not resolve, and what
    it constructs from a mapping of such values. *)
Lemma resolver_relabels (w : World) (deep load_lambda : bool) (v : value) :
  plain v = true -> distinct_keys v = true ->
  (unresolved deep v = true ->
   ExtendedPickleRick.internalized w deep load_lambda
     (ExtendedPickleRick.construct w deep load_lambda) v
   = Ok (relabel (BasicRick.internalized deep v))) /\
  (forall d, v = VDict d ->
   forallb (fun kv => unresolved deep (snd kv)) d = true ->
   ExtendedPickleRick.construct w deep load_lambda v
   = Ok (relabel (BasicRick.internalized deep v))).
Proof.
  induction v as [| | | |l IH|d IH|c d IH] using value_rect';
    intros Hp Hd; try (split; [reflexivity|discriminate]).
  - (* a list *)
    split; [|discriminate].
    intros Hu. simpl in Hp, Hd, Hu.
    rewrite forallb_forall in Hp, Hd.
    unfold ExtendedPickleRick.internalized.
    destruct deep; simpl in Hu.
    + rewrite forallb_forall in Hu.
      rewrite (new_list_maps _
                 (fun i => relabel (BasicRick.internalized true i)) l).
      * simpl. do 2 f_equal. rewrite map_map.
        apply map_ext_in. intros i Hi.
        destruct i; try reflexivity;
          symmetry; apply relabel_plain; now apply Hp.
      * rewrite Forall_forall in IH |- *. intros i Hi di ->.
        apply (proj2 (IH _ Hi (Hp _ Hi) (Hd _ Hi)) di eq_refl).
        apply (Hu _ Hi).
    + rewrite relabel_plain; [reflexivity|].
      simpl. now apply forallb_forall.
  - (* a mapping *)
    pose proof (distinct_keys_NoDup Basic d Hd) as Hnd.
    simpl in Hp, Hd. apply andb_true_iff in Hd as [_ Hd].
    rewrite forallb_forall in Hp, Hd. rewrite Forall_forall in IH.
    assert (Hc : forallb (fun kv => unresolved deep (snd kv)) d = true ->
                 ExtendedPickleRick.construct w deep load_lambda (VDict d)
                 = Ok (relabel (BasicRick.internalized deep (VDict d)))).
    { intros Hu. rewrite forallb_forall in Hu.
      cbn [ExtendedPickleRick.construct].
      rewrite (loop_maps w deep load_lambda
                 (fun x => relabel (BasicRick.internalized deep x)) d []).
      - rewrite internalized_dict, iternalize_map by exact Hnd.
        simpl. now rewrite map_map.
      - apply Forall_forall. intros kv Hin.
        apply (proj1 (IH kv Hin (Hp kv Hin) (Hd kv Hin))).
        apply (Hu kv Hin).
      - exact Hnd. }
    split.
    + intros Hu. cbn [unresolved] in Hu.
      apply andb_true_iff in Hu as [Hu Hall].
      apply andb_true_iff in Hu as [He Hl].
      apply negb_true_iff in He, Hl.
      unfold ExtendedPickleRick.internalized. rewrite He, Hl.
      now apply Hc.
    + intros d' [= <-]. exact Hc.
  - discriminate.
Qed.

(** X18: on a mapping of plain data whose values the resolver has
    nothing to resolve in, [ExtendedPickleRick] builds, for either
    setting of [deep] and of [load_lambda], the tree [BasicRick] builds,
    with [ExtendedPickleRick] as the class of every node. *)
Theorem resolver_builds_same_tree (w : World) (deep load_lambda : bool)
    (M : pydict) :
  mapping M = true ->
  forallb (fun kv => unresolved deep (snd kv)) M = true ->
  exists nb,
    BasicRick.new w (BDict M) deep = Ok (VRick Basic nb) /\
    ExtendedPickleRick.new w (BDict M) deep load_lambda
    = Ok (relabel (VRick Basic nb)).
Proof.
  intros HM Hu. unfold mapping in HM.
  apply andb_true_iff in HM as [Hp Hd].
  exists (BasicRick._iternalize [] M deep). split; [reflexivity|].
  pose proof (proj2 (resolver_relabels w deep load_lambda (VDict M) Hp Hd)
                M eq_refl Hu) as E.
  rewrite internalized_dict in E.
  unfold ExtendedPickleRick.new, BasicRick.__init__,
    ExtendedPickleRick.iternalize_call, ExtendedPickleRick._iternalize.
  cbn [ExtendedPickleRick.construct] in E. simpl items.
  destruct (ExtendedPickleRick.loop w deep load_lambda
              (ExtendedPickleRick.construct w deep load_lambda) M [])
    as [self [[]|e]]; [|discriminate].
  exact E.
Qed.

Lemma resolver_builds_same_tree_witness :
  exists nb,
    BasicRick.new bare_world (BDict sample_with_list) true
    = Ok (VRick Basic nb) /\
    ExtendedPickleRick.new bare_world (BDict sample_with_list) true false
    = Ok (relabel (VRick Basic nb)).
Proof.
  apply (resolver_builds_same_tree bare_world true false sample_with_list);
    reflexivity.
Defined.

(** ** The order of the parsing strategies *)

(** X19: for a [str] that is not the path of a file, the node is built
    from what the YAML parser reads when that is a mapping, and from
    what the JSON parser reads when the YAML parser fails or reads
    something else; for a [str] that is the path of a file whose text
    the YAML parser reads as a mapping, the node is built from the file,
    not from the string; for an open stream that the YAML parser reads
    as a mapping, from the stream. *)
Theorem strategy_order (w : World) (deep : bool) (s : string) (d : pydict) :
  (path_isfile w s = false -> yaml_load w s = Ok (VDict d) ->
   BasicRick.new w (BStr s) deep
   = Ok (VRick Basic (BasicRick._iternalize [] d deep))) /\
  (path_isfile w s = false -> loads_mapping (yaml_load w s) = false ->
   json_loads w s = Ok (VDict d) ->
   BasicRick.new w (BStr s) deep
   = Ok (VRick Basic (BasicRick._iternalize [] d deep))) /\
  (forall txt,
     path_isfile w s = true -> read_file w s = Ok txt ->
     yaml_load w txt = Ok (VDict d) ->
     BasicRick.new w (BStr s) deep
     = Ok (VRick Basic (BasicRick._iternalize [] d deep))) /\
  (yaml_load w s = Ok (VDict d) ->
   BasicRick.new w (BStream s) deep
   = Ok (VRick Basic (BasicRick._iternalize [] d deep))).
Proof.
  unfold BasicRick.new, BasicRick.__init__, BasicRick.or_else,
    BasicRick.nothing, os_path_isfile.
  repeat split.
  - intros Hf Hy. rewrite Hf, Hy. reflexivity.
  - intros Hf Hy Hj. rewrite Hf.
    rewrite (attempt_fails deep _ [] Hy), Hj. reflexivity.
  - intros txt Hf Hr Hy. rewrite Hf, Hr. simpl. rewrite Hy. reflexivity.
  - intros Hy. rewrite Hy. reflexivity.
Qed.

Lemma strategy_order_witness :
  BasicRick.new pyyaml_fragment (BStr sample_ab_yaml) false
  = Ok (VRick Basic (BasicRick._iternalize [] sample_ab false)).
Proof.
  exact (proj1 (strategy_order pyyaml_fragment false sample_ab_yaml sample_ab)
           eq_refl eq_refl).
Defined.

(** ** [dict()] after a deep build *)

Lemma pure_dict_keeps_nodes_in_lists (M : pydict) (k : string)
    (l : list value) (d : pydict) :
  nodupb (keys M) = true ->
  lookup k M = Some (VList l) -> In (VDict d) l ->
  exists l',
    lookup k (Pure.dict (BasicRick._iternalize [] M true))
    = Some (VList l') /\
    List.length l' = List.length l /\
    In (VRick Basic (BasicRick._iternalize [] d true)) l'.
Proof.
  intros Hnd Hk Hin. apply nodupb_NoDup in Hnd.
  rewrite iternalize_map by exact Hnd.
  rewrite dict_map by (now rewrite keys_map_snd).
  rewrite map_map. simpl.
  rewrite (lookup_map_snd
             (fun x => Pure.dict_value (BasicRick.internalized true x))).
  rewrite Hk. simpl.
  eexists. split; [reflexivity|]. split.
  - apply length_map.
  - apply (in_map (fun i => match i with
                            | VDict _ => BasicRick.internalized true i
                            | _ => i
                            end)) in Hin.
    exact Hin.
Qed.


(** ** Calls on a node *)

Lemma method_found (A : Type) (self : pydict) (name : string)
    (body : result A) :
  contains name self = false -> method self name body = body.
Proof. unfold method. now intros ->. Qed.

Lemma method_hidden (A : Type) (self : pydict) (name : string)
    (body : result A) :
  contains name self = true -> method self name body = Raise TypeError.
Proof. unfold method. now intros ->. Qed.

Lemma search_eq (self : pydict) (key : string) (v : value) :
  BasicRick.search self key v
  = method self "_recursive_search"
      match v with
      | VDict d | VRick _ d =>
          match lookup key d with
          | Some x => Ok x
          | None => BasicRick.search_loop (BasicRick.search self key) d
          end
      | _ => Ok VNone
      end.
Proof. now destruct v. Qed.

Lemma search_hidden (self : pydict) (key : string) (v : value) :
  contains "_recursive_search" self = true ->
  BasicRick.search self key v = Raise TypeError.
Proof. intros H. rewrite search_eq. now apply method_hidden. Qed.

Lemma search_loop_pure (self : pydict) (key : string) (l : pydict) :
  Forall (fun kv => BasicRick.search self key (snd kv)
                    = Ok (Pure.search key (snd kv))) l ->
  BasicRick.search_loop (BasicRick.search self key) l
  = Ok (Pure.search_loop (Pure.search key) l).
Proof.
  induction 1 as [|[k v] r Hv _ IH]; simpl; [reflexivity|].
  simpl in Hv.
  destruct v; try exact IH;
    rewrite Hv; (destruct (truthy (Pure.search key _)); [reflexivity|exact IH]).
Qed.

(** On a node without a field called [_recursive_search], the search
    returns what [Pure.search] computes. *)
Lemma search_pure (self : pydict) (key : string) (v : value) :
  contains "_recursive_search" self = false ->
  BasicRick.search self key v = Ok (Pure.search key v).
Proof.
  intros H.
  induction v as [| | | |l IH|d IH|c d IH] using value_rect';
    rewrite search_eq, method_found by exact H; try reflexivity.
  - simpl. destruct (lookup key d); [reflexivity|].
    now apply search_loop_pure.
  - simpl. destruct (lookup key d); [reflexivity|].
    now apply search_loop_pure.
Qed.

Lemma get_outcome (self : pydict) (key : string) (default : value) :
  BasicRick.get self key default
  = if contains "get" self || contains "_recursive_search" self
    then Raise TypeError
    else Ok (Pure.get self key default).
Proof.
  unfold BasicRick.get, BasicRick._recursive_search.
  destruct (contains "get" self) eqn:G;
    [now rewrite method_hidden|rewrite method_found by exact G].
  cbn [orb].
  destruct (contains "_recursive_search" self) eqn:E.
  - now rewrite search_hidden.
  - rewrite !search_pure by exact E. cbn [bind].
    unfold Pure.get, Pure._recursive_search. cbv zeta.
    set (a := Pure.search key (VDict self)).
    set (b := Pure.search (lower key) (VDict self)).
    set (c := Pure.search (upper key) (VDict self)).
    destruct (truthy a) eqn:Ha; cbn [negb bind]; rewrite ?Ha;
      cbn [negb]; try reflexivity.
    destruct (truthy b) eqn:Hb; cbn [negb bind]; rewrite ?Hb;
      cbn [negb]; try reflexivity.
    now destruct (truthy c).
Qed.

Lemma has_outcome (self : pydict) (key : string) (deep : bool) :
  BasicRick.has self key deep
  = if contains "has" self then Raise TypeError
    else if contains key self then Ok true
    else if deep then
      if contains "_recursive_search" self then Raise TypeError
      else Ok (truthy (Pure._recursive_search self key))
    else Ok false.
Proof.
  unfold BasicRick.has, method, BasicRick._recursive_search.
  destruct (contains "has" self); [reflexivity|].
  destruct (contains key self); [reflexivity|].
  destruct deep; [|reflexivity].
  destruct (contains "_recursive_search" self) eqn:E.
  - now rewrite search_hidden.
  - rewrite search_pure by exact E. cbn [bind].
    unfold Pure._recursive_search.
    now destruct (truthy (Pure.search key (VDict self))).
Qed.

Lemma get_returns (self : pydict) (key : string) (default : value) :
  contains "get" self = false ->
  contains "_recursive_search" self = false ->
  BasicRick.get self key default = Ok (Pure.get self key default).
Proof. intros H1 H2. now rewrite get_outcome, H1, H2. Qed.

Lemma contains_build (name : string) (deep : bool) (M : pydict) :
  NoDup (keys M) ->
  contains name (BasicRick._iternalize [] M deep) = contains name M.
Proof.
  intros Hnd. unfold contains.
  rewrite iternalize_map by exact Hnd.
  rewrite lookup_map_snd. now destruct (lookup name M).
Qed.

Lemma contains_update_other (name key : string) (self : pydict)
    (item : value) :
  name <> key -> contains name (update self key item) = contains name self.
Proof.
  intros H. unfold contains. now rewrite lookup_update_other.
Qed.

(** X4: the call [get(key, default)] raises [TypeError] or returns; what
    it returns is the default or a value stored in the tree under the
    key, the lowercased key or the uppercased key. *)
Theorem get_sound (self : pydict) (key : string) (default : value) :
  BasicRick.get self key default = Raise TypeError \/
  exists r,
    BasicRick.get self key default = Ok r /\
    (r = default \/
     In r (stored_under key self ++ stored_under (lower key) self
             ++ stored_under (upper key) self)%list).
Proof.
  rewrite get_outcome.
  destruct (contains "get" self || contains "_recursive_search" self);
    [now left|right].
  eexists. split; [reflexivity|]. apply pure_get_sound.
Qed.

(** X5: what the call [get(key, default)] returns is truthy, or it is
    the default. *)
Theorem get_truthy_or_default (self : pydict) (key : string)
    (default : value) :
  BasicRick.get self key default = Raise TypeError \/
  exists r,
    BasicRick.get self key default = Ok r /\
    (r = default \/ truthy r = true).
Proof.
  rewrite get_outcome.
  destruct (contains "get" self || contains "_recursive_search" self);
    [now left|right].
  eexists. split; [reflexivity|]. apply pure_get_truthy_or_default.
Qed.

(** X6: on a node without a field called [get] or [_recursive_search],
    when the key is stored nowhere in the tree outside lists, in none of
    its three spellings, [get] returns the default; a key that occurs
    only in an element of a list is not found. *)
Theorem get_missing (self : pydict) (key : string) (default : value) :
  contains "get" self = false ->
  contains "_recursive_search" self = false ->
  stored_under key self = [] ->
  stored_under (lower key) self = [] ->
  stored_under (upper key) self = [] ->
  BasicRick.get self key default = Ok default.
Proof.
  intros Hg Hr H1 H2 H3. rewrite get_returns by assumption.
  f_equal. now apply pure_get_missing.
Qed.

Lemma get_missing_witness :
  BasicRick.get (BasicRick._iternalize [] sample_dict_in_list true) "d"
                sentinel
  = Ok sentinel.
Proof.
  apply (get_missing
           (BasicRick._iternalize [] sample_dict_in_list true) "d" sentinel);
    reflexivity.
Defined.

(** X7: on a node without a field called [get], [has] or
    [_recursive_search], a falsy value at the top level hides itself:
    when the key is spelled in lower case and its uppercased spelling is
    stored nowhere, [get] returns the default although [has] finds the
    key. *)
Theorem get_falsy_top_level (self : pydict) (key : string)
    (v default : value) :
  contains "get" self = false -> contains "has" self = false ->
  contains "_recursive_search" self = false ->
  lookup key self = Some v -> truthy v = false ->
  lower key = key -> stored_under (upper key) self = [] ->
  BasicRick.get self key default = Ok default /\
  BasicRick.has self key false = Ok true.
Proof.
  intros Hg Hh Hr Hk Hv Hlow Hup.
  destruct (pure_get_falsy_top_level self key v default Hk Hv Hlow Hup)
    as [G H].
  split.
  - rewrite get_returns by assumption. now rewrite G.
  - rewrite has_outcome, Hh. unfold contains. now rewrite Hk.
Qed.

Lemma get_falsy_top_level_witness :
  BasicRick.get sample_zero "a" sentinel = Ok sentinel /\
  BasicRick.has sample_zero "a" false = Ok true.
Proof.
  apply (get_falsy_top_level sample_zero "a" (VInt 0) sentinel);
    reflexivity.
Defined.

(** X8: when the call [has(key)] returns true so does
    [has(key, deep=True)], and when that returns true the key is stored
    somewhere in the tree. *)
Theorem has_deep_sound (self : pydict) (key : string) :
  (BasicRick.has self key false = Ok true ->
   BasicRick.has self key true = Ok true) /\
  (BasicRick.has self key true = Ok true -> stored_under key self <> []).
Proof.
  rewrite !has_outcome. split.
  - destruct (contains "has" self); [discriminate|].
    destruct (contains key self); [reflexivity|discriminate].
  - destruct (contains "has" self); [discriminate|].
    intros H. apply (proj2 (pure_has_deep_sound self key)).
    unfold Pure.has.
    destruct (contains key self); [reflexivity|].
    destruct (contains "_recursive_search" self); [discriminate|].
    simpl. injection H as ->. reflexivity.
Qed.

Lemma has_deep_sound_witness :
  BasicRick.has sample_inner_key "a" true = Ok true /\
  stored_under "k" sample_inner_key <> [].
Proof.
  split.
  - exact (proj1 (has_deep_sound sample_inner_key "a") eq_refl).
  - exact (proj2 (has_deep_sound sample_inner_key "k") eq_refl).
Defined.

(** C1, amended: for every mapping [M] of plain data and every key [k]
    at its top level whose value is truthy, the node built from [M] with
    [deep] off answers [get(k)] with that value when it is not a
    mapping and with the child node built from it when it is a mapping,
    provided no key at the top level of [M] is called [get] or
    [_recursive_search]; when one is, the call raises [TypeError]. *)
Theorem get_top_level (w : World) (M : pydict) (k : string)
    (v default : value) :
  mapping M = true -> lookup k M = Some v -> truthy v = true ->
  exists node,
    BasicRick.new w (BDict M) false = Ok (VRick Basic node) /\
    (contains "get" M || contains "_recursive_search" M = true ->
     BasicRick.get node k default = Raise TypeError) /\
    (contains "get" M || contains "_recursive_search" M = false ->
     ((forall d, v <> VDict d) -> BasicRick.get node k default = Ok v) /\
     (forall d, v = VDict d ->
        BasicRick.get node k default
        = Ok (VRick Basic (BasicRick._iternalize [] d false)))).
Proof.
  intros HM Hk Hv.
  pose proof HM as HM'. unfold mapping in HM'.
  apply andb_true_iff in HM' as [Hp Hd].
  pose proof (distinct_keys_NoDup Basic M Hd) as Hnd.
  exists (BasicRick._iternalize [] M false).
  split; [reflexivity|].
  rewrite get_outcome, !contains_build by exact Hnd.
  split.
  - now intros ->.
  - intros ->.
    assert (Hin : In (k, v) M) by now apply lookup_In.
    assert (Hdv : distinct_keys v = true).
    { simpl in Hd. apply andb_true_iff in Hd as [_ Hd].
      rewrite forallb_forall in Hd. apply (Hd _ Hin). }
    assert (G : Pure.get (BasicRick._iternalize [] M false) k default
                = BasicRick.internalized false v).
    { apply get_exact.
      - apply search_top. rewrite iternalize_map by exact Hnd.
        now rewrite lookup_map_snd, Hk.
      - now rewrite truthy_internalized. }
    rewrite G. split.
    + intros Hnot. destruct v; try reflexivity. now destruct (Hnot d).
    + now intros d ->.
Qed.

Lemma get_top_level_witness :
  exists node,
    BasicRick.new bare_world (BDict sample_nested) false
    = Ok (VRick Basic node) /\
    BasicRick.get node "c" VNone = Ok (VStr "x") /\
    BasicRick.get node "a" VNone
    = Ok (VRick Basic (BasicRick._iternalize [] [("b", VInt 1)] false)).
Proof.
  destruct (get_top_level bare_world sample_nested "c" (VStr "x") VNone
              eq_refl eq_refl eq_refl) as [node [Hn [_ Hc]]].
  destruct (get_top_level bare_world sample_nested "a"
              (VDict [("b", VInt 1)]) VNone eq_refl eq_refl eq_refl)
    as [node' [Hn' [_ Ha]]].
  exists node. split; [exact Hn|].
  assert (E : node' = node) by congruence. subst node'.
  split.
  - apply (proj1 (Hc eq_refl)). discriminate.
  - apply (proj2 (Ha eq_refl)). reflexivity.
Defined.

(** C1 as stated fails twice: [get("a")] on the node built from
    [{"a": 0}] is the default [None], not [0]; and on the node built
    from [{"a": {"b": 1}}] it is a child node, which does not compare
    equal to [{"b": 1}]. *)
Lemma get_top_level_counterexample :
  lookup "a" sample_zero = Some (VInt 0) /\
  BasicRick.new bare_world (BDict sample_zero) false
  = Ok (VRick Basic [("a", VInt 0)]) /\
  BasicRick.get [("a", VInt 0)] "a" VNone = Ok VNone /\
  py_eq VNone (VInt 0) = false /\
  lookup "a" sample_child = Some (VDict [("b", VInt 1)]) /\
  BasicRick.new bare_world (BDict sample_child) false
  = Ok (VRick Basic [("a", VRick Basic [("b", VInt 1)])]) /\
  BasicRick.get [("a", VRick Basic [("b", VInt 1)])] "a" VNone
  = Ok (VRick Basic [("b", VInt 1)]) /\
  py_eq (VRick Basic [("b", VInt 1)]) (VDict [("b", VInt 1)]) = false.
Proof. repeat split. Qed.

(** C8, amended: on a node tree without a top-level field called [get]
    or [_recursive_search], [get(K)] returns the truthy value of the key
    [K] when it is stored once in the tree outside lists (at the top
    level or in a nested node or mapping); when [K] is stored nowhere,
    the truthy value stored once under the lowercased key (so
    [get("FOO")] finds [foo]); when that is stored nowhere either, the
    truthy value stored once under the uppercased key (so [get("foo")]
    finds [FOO]): the exact key, then the lowercased, then the
    uppercased. *)
Theorem get_case_fallback (self : pydict) (K : string) (v default : value) :
  truthy v = true ->
  contains "get" self = false ->
  contains "_recursive_search" self = false ->
  (stored_under K self = [v] -> BasicRick.get self K default = Ok v) /\
  (stored_under K self = [] -> stored_under (lower K) self = [v] ->
   BasicRick.get self K default = Ok v) /\
  (stored_under K self = [] -> stored_under (lower K) self = [] ->
   stored_under (upper K) self = [v] ->
   BasicRick.get self K default = Ok v).
Proof.
  intros Hv Hg Hr. rewrite get_returns by assumption. repeat split.
  - intros H. f_equal. apply get_exact; [|exact Hv]. now apply search_once.
  - intros Habs Hlow. f_equal.
    exact (proj1 (pure_get_case_fallback self K v default Hv Habs) Hlow).
  - intros Habs Hlow Hup. f_equal.
    exact (proj1 (proj2 (pure_get_case_fallback self K v default Hv Habs))
             Hlow Hup).
Qed.

Lemma get_case_fallback_witness :
  BasicRick.get sample_lower "FOO" VNone = Ok (VInt 5) /\
  BasicRick.get sample_upper "foo" VNone = Ok (VInt 5).
Proof.
  split.
  - exact (proj1 (proj2 (get_case_fallback sample_lower "FOO" (VInt 5) VNone
                           eq_refl eq_refl eq_refl)) eq_refl eq_refl).
  - exact (proj2 (proj2 (get_case_fallback sample_upper "foo" (VInt 5) VNone
                           eq_refl eq_refl eq_refl)) eq_refl eq_refl eq_refl).
Defined.

(** C8 as stated fails twice.  In the node built from
    [{"foo": 0, "a": {"foo": 5}}] the key [foo] is stored with the
    truthy value 5 and [FOO] nowhere, yet [get("FOO")] returns the
    default: the falsy [foo] of the top level is found first.  In the
    node built with [deep] on from [{"c": [{"foo": 5}]}] the key [foo]
    is in a node inside a list, where the search does not go. *)
Lemma get_case_fallback_counterexample :
  BasicRick.new bare_world (BDict sample_foo_twice) false
  = Ok (VRick Basic [("foo", VInt 0); ("a", VRick Basic [("foo", VInt 5)])])
  /\
  follow [Key "a"; Key "foo"]
    (VRick Basic [("foo", VInt 0); ("a", VRick Basic [("foo", VInt 5)])])
  = Some (VInt 5) /\
  stored_under "FOO"
    [("foo", VInt 0); ("a", VRick Basic [("foo", VInt 5)])] = [] /\
  BasicRick.get [("foo", VInt 0); ("a", VRick Basic [("foo", VInt 5)])]
    "FOO" sentinel = Ok sentinel /\
  BasicRick.new bare_world (BDict sample_foo_in_list) true
  = Ok (VRick Basic [("c", VList [VRick Basic [("foo", VInt 5)]])]) /\
  follow [Key "c"; Index 0; Key "foo"]
    (VRick Basic [("c", VList [VRick Basic [("foo", VInt 5)]])])
  = Some (VInt 5) /\
  BasicRick.get [("c", VList [VRick Basic [("foo", VInt 5)]])]
    "FOO" sentinel = Ok sentinel.
Proof. repeat split. Qed.

(** C9, amended: for every node tree without a top-level field called
    [get], [has] or [_recursive_search], and every key [k] stored once
    in it (at the top level or in a nested node or mapping) with a
    truthy value, [get(k, sentinel)] returns that value and not the
    sentinel, [has(k, deep=True)] is true, and [has(k)] with [deep] left
    off is true exactly when [k] is a field of the top level. *)
Theorem has_agrees_with_get (self : pydict) (k : string) (v s : value) :
  contains "get" self = false -> contains "has" self = false ->
  contains "_recursive_search" self = false ->
  stored_under k self = [v] -> truthy v = true -> s <> v ->
  BasicRick.get self k s = Ok v /\
  BasicRick.get self k s <> Ok s /\
  BasicRick.has self k true = Ok true /\
  (BasicRick.has self k false = Ok true <-> contains k self = true) /\
  BasicRick.has self k false = Ok (contains k self).
Proof.
  intros Hg Hh Hr Hs Hv Hne.
  destruct (pure_has_agrees_with_get self k v s Hs Hv Hne)
    as [G [_ [Ht _]]].
  rewrite get_returns, G by assumption.
  rewrite !has_outcome, Hh, Hr.
  repeat split.
  - congruence.
  - unfold Pure.has in Ht.
    destruct (contains k self); [reflexivity|].
    simpl in Ht.
    destruct (truthy (Pure._recursive_search self k));
      [reflexivity|discriminate].
  - destruct (contains k self); [reflexivity|discriminate].
  - now intros ->.
  - now destruct (contains k self).
Qed.

Lemma has_agrees_with_get_witness :
  BasicRick.get sample_inner_key "k" sentinel = Ok (VInt 1) /\
  BasicRick.has sample_inner_key "k" true = Ok true /\
  BasicRick.has sample_inner_key "k" false = Ok false.
Proof.
  destruct (has_agrees_with_get sample_inner_key "k" (VInt 1) sentinel)
    as [G [_ [Ht [_ Hf]]]]; try reflexivity; try discriminate.
  repeat split; assumption.
Defined.

(** C9 as stated fails on the node built from [{"a": {"k": 1}}]: the
    truthy value 1 is stored under [k], [get("k", sentinel)] finds it,
    and [has("k")] is false. *)
Lemma has_agrees_with_get_counterexample :
  BasicRick.new bare_world (BDict sample_inner_key) false
  = Ok (VRick Basic [("a", VRick Basic [("k", VInt 1)])]) /\
  stored_under "k" [("a", VRick Basic [("k", VInt 1)])] = [VInt 1] /\
  truthy (VInt 1) = true /\
  BasicRick.has [("a", VRick Basic [("k", VInt 1)])] "k" false = Ok false /\
  BasicRick.get [("a", VRick Basic [("k", VInt 1)])] "k" sentinel
  = Ok (VInt 1) /\
  ~ (BasicRick.has [("a", VRick Basic [("k", VInt 1)])] "k" false = Ok true
     <-> BasicRick.get [("a", VRick Basic [("k", VInt 1)])] "k" sentinel
         <> Ok sentinel).
Proof.
  repeat split.
  intros [_ H].
  assert (E : BasicRick.has [("a", VRick Basic [("k", VInt 1)])] "k" false
              = Ok true) by (apply H; discriminate).
  discriminate E.
Qed.

(** X9: after [self[key] = item], [self[key]] is [item], every other
    field reads as before, and the number of fields grows by one
    exactly when the key is new; reading a field that is not there
    raises [KeyError].  On a node without a field called [get] or
    [_recursive_search], and for a key that is neither, [get(key)] then
    returns [item] when it is truthy; after [self["get"] = item] every
    call of [get] raises [TypeError]. *)
Theorem setitem_getitem (self : pydict) (key : string) (item : value) :
  BasicRick.__getitem__ (BasicRick.__setitem__ self key item) key = Ok item /\
  (forall k, k <> key ->
     BasicRick.__getitem__ (BasicRick.__setitem__ self key item) k
     = BasicRick.__getitem__ self k) /\
  BasicRick.__len__ (BasicRick.__setitem__ self key item)
  = (if contains key self then BasicRick.__len__ self
     else S (BasicRick.__len__ self)) /\
  (forall default, truthy item = true ->
     key <> "get" -> key <> "_recursive_search" ->
     contains "get" self = false ->
     contains "_recursive_search" self = false ->
     BasicRick.get (BasicRick.__setitem__ self key item) key default
     = Ok item) /\
  (forall k default,
     BasicRick.get (BasicRick.__setitem__ self "get" item) k default
     = Raise TypeError) /\
  (forall k, contains k self = false ->
     BasicRick.__getitem__ self k = Raise KeyError).
Proof.
  destruct (pure_setitem_getitem self key item) as [H1 [H2 [H3 [H4 H5]]]].
  repeat split; try assumption.
  - intros default Ht Hk1 Hk2 Hg Hr.
    rewrite get_returns.
    + f_equal. now apply H4.
    + unfold BasicRick.__setitem__.
      rewrite contains_update_other by congruence. exact Hg.
    + unfold BasicRick.__setitem__.
      rewrite contains_update_other by congruence. exact Hr.
  - intros k default. rewrite get_outcome.
    unfold BasicRick.__setitem__, contains.
    now rewrite lookup_update_same.
Qed.

Lemma setitem_getitem_witness :
  BasicRick.get (BasicRick.__setitem__ sample_zero "a" (VInt 7)) "a" VNone
  = Ok (VInt 7) /\
  BasicRick.__getitem__ sample_zero "b" = Raise KeyError.
Proof.
  split.
  - apply (proj1 (proj2 (proj2 (proj2
             (setitem_getitem sample_zero "a" (VInt 7)))))); 
      reflexivity || discriminate.
  - exact (proj2 (proj2 (proj2 (proj2 (proj2
             (setitem_getitem sample_zero "a" (VInt 7)))))) "b" eq_refl).
Defined.

(** ** Calls of [dict()] *)

Lemma dict_value_rick_eq (c : cls) (fields : pydict) :
  BasicRick.dict_value (VRick c fields)
  = (d <- BasicRick.dict fields ;; Ok (VDict d)).
Proof.
  simpl. unfold BasicRick.dict, method.
  now destruct (contains "dict" fields).
Qed.

Lemma dict_loop_pure (fields acc : pydict) :
  Forall (fun kv => BasicRick.dict_value (snd kv)
                    = Ok (Pure.dict_value (snd kv))) fields ->
  BasicRick.dict_loop BasicRick.dict_value fields acc
  = Ok (fold_left (fun d kv => update d (fst kv) (Pure.dict_value (snd kv)))
                  fields acc).
Proof.
  intros H. revert acc.
  induction H as [|[k v] r Hv _ IH]; intros acc; simpl; [reflexivity|].
  simpl in Hv. rewrite Hv. simpl. apply IH.
Qed.

Lemma dict_loop_returns (fields acc d : pydict) :
  Forall (fun kv => forall x, BasicRick.dict_value (snd kv) = Ok x ->
                              x = Pure.dict_value (snd kv)) fields ->
  BasicRick.dict_loop BasicRick.dict_value fields acc = Ok d ->
  d = fold_left (fun d kv => update d (fst kv) (Pure.dict_value (snd kv)))
                fields acc.
Proof.
  intros H. revert acc.
  induction H as [|[k v] r Hv _ IH]; intros acc; simpl.
  - now intros [= <-].
  - simpl in Hv.
    destruct (BasicRick.dict_value v) as [x|e]; [|discriminate].
    simpl. rewrite (Hv x eq_refl). apply IH.
Qed.

(** [dict()] returns what [Pure.dict] computes when no node it reaches
    has a field called [dict]. *)
Lemma dict_value_pure (v : value) :
  deconstructible v = true ->
  BasicRick.dict_value v = Ok (Pure.dict_value v).
Proof.
  induction v as [| | | |l IH|d IH|c d IH] using value_rect';
    intros H; try reflexivity.
  simpl in H. apply andb_true_iff in H as [Hc Hall].
  apply negb_true_iff in Hc. rewrite forallb_forall in Hall.
  cbn [BasicRick.dict_value]. rewrite method_found by exact Hc.
  rewrite dict_loop_pure; [reflexivity|].
  rewrite Forall_forall in IH |- *. intros kv Hin.
  apply (IH kv Hin). now apply Hall.
Qed.

(** Whenever [dict()] returns, it returns that. *)
Lemma dict_value_returns (v x : value) :
  BasicRick.dict_value v = Ok x -> x = Pure.dict_value v.
Proof.
  revert x.
  induction v as [| | | |l IH|d IH|c d IH] using value_rect';
    intros x; try (now intros [= <-]).
  cbn [BasicRick.dict_value]. unfold method.
  destruct (contains "dict" d); [discriminate|].
  destruct (BasicRick.dict_loop BasicRick.dict_value d []) as [y|e] eqn:E;
    [|discriminate].
  simpl. intros [= <-].
  now rewrite (dict_loop_returns d [] y IH E).
Qed.

Lemma dict_pure (c : cls) (self : pydict) :
  deconstructible (VRick c self) = true ->
  BasicRick.dict self = Ok (Pure.dict self).
Proof.
  intros H. pose proof (dict_value_pure (VRick c self) H) as E.
  rewrite dict_value_rick_eq in E.
  destruct (BasicRick.dict self) as [d|e]; [|discriminate].
  simpl in E. now injection E as ->.
Qed.

Lemma dict_returns (self d : pydict) :
  BasicRick.dict self = Ok d -> d = Pure.dict self.
Proof.
  intros H.
  pose proof (dict_value_returns (VRick Basic self) (VDict d)) as E.
  rewrite dict_value_rick_eq, H in E.
  specialize (E eq_refl). now injection E.
Qed.

Lemma deconstructible_build (deep : bool) (v : value) :
  plain v = true -> distinct_keys v = true -> free_of "dict" v = true ->
  deconstructible (BasicRick.internalized deep v) = true.
Proof.
  induction v as [| | | |l IH|d IH|c d IH] using value_rect';
    intros Hp Hd Hf; try reflexivity; try discriminate.
  - simpl. now destruct deep.
  - pose proof (distinct_keys_NoDup Basic d Hd) as Hnd.
    rewrite internalized_dict. cbn [deconstructible].
    rewrite contains_build by exact Hnd.
    simpl in Hp, Hd, Hf.
    apply andb_true_iff in Hd as [_ Hd].
    apply andb_true_iff in Hf as [Hc Hf]. rewrite Hc. simpl.
    rewrite iternalize_map by exact Hnd.
    rewrite forallb_forall in Hp, Hd, Hf |- *.
    rewrite Forall_forall in IH.
    intros kv Hin. apply in_map_iff in Hin as [[k x] [<- Hin]]. simpl.
    apply (IH (k, x) Hin);
      [apply (Hp _ Hin)|apply (Hd _ Hin)|apply (Hf _ Hin)].
Qed.


Lemma dict_of_build_returns (deep : bool) (M : pydict) :
  mapping M = true -> free_of "dict" (VDict M) = true ->
  BasicRick.dict (BasicRick._iternalize [] M deep)
  = Ok (Pure.dict (BasicRick._iternalize [] M deep)).
Proof.
  intros HM Hf. unfold mapping in HM. apply andb_true_iff in HM as [Hp Hd].
  apply (dict_pure Basic).
  rewrite <- internalized_dict. now apply deconstructible_build.
Qed.




(** C10, at the failing input: built with [deep] on from
    [{"c": [{"d": 2}]}], which has no placeholder, the two variants hold
    a node of their own class inside the list; [dict()] leaves the
    elements of lists as they are, and the two instances, so the two
    deconstructions, do not compare equal. *)
Theorem refinement_breaks_in_lists :
  BasicRick.new bare_world (BDict sample_dict_in_list) true
  = Ok (VRick Basic [("c", VList [VRick Basic [("d", VInt 2)]])]) /\
  ExtendedPickleRick.new bare_world (BDict sample_dict_in_list) true false
  = Ok (VRick Extended [("c", VList [VRick Extended [("d", VInt 2)]])]) /\
  BasicRick.dict [("c", VList [VRick Basic [("d", VInt 2)]])]
  = Ok [("c", VList [VRick Basic [("d", VInt 2)]])] /\
  BasicRick.dict [("c", VList [VRick Extended [("d", VInt 2)]])]
  = Ok [("c", VList [VRick Extended [("d", VInt 2)]])] /\
  py_eq (VDict [("c", VList [VRick Basic [("d", VInt 2)]])])
        (VDict [("c", VList [VRick Extended [("d", VInt 2)]])]) = false.
Proof. repeat split. Qed.

(** X3: with [deep] off, [dict()] gives back the mapping of plain data
    the node was built from, lists included, when no mapping, itself or
    nested under keys, has a key called [dict]. *)
Theorem dict_of_shallow_build (M : pydict) :
  mapping M = true -> free_of "dict" (VDict M) = true ->
  BasicRick.dict (BasicRick._iternalize [] M false) = Ok M.
Proof.
  intros HM Hf. pose proof HM as HM'. unfold mapping in HM'.
  apply andb_true_iff in HM' as [_ Hd].
  rewrite dict_of_build_returns by assumption.
  now rewrite pure_dict_of_shallow_build.
Qed.

Lemma dict_of_shallow_build_witness :
  BasicRick.dict (BasicRick._iternalize [] sample_with_list false)
  = Ok sample_with_list.
Proof.
  apply (dict_of_shallow_build sample_with_list); reflexivity.
Defined.

(** X13: the mapping [dict()] returns never has a node as the value of
    a key: each is deconstructed into a mapping. *)
Theorem dict_has_no_direct_node (self d : pydict) (k : string) (c : cls)
    (fields : pydict) :
  BasicRick.dict self = Ok d -> lookup k d <> Some (VRick c fields).
Proof.
  intros H. rewrite (dict_returns self d H).
  apply pure_dict_has_no_direct_node.
Qed.

Lemma dict_has_no_direct_node_witness :
  lookup "a" [("a", VDict [("b", VInt 1)]); ("c", VStr "x")]
  <> Some (VRick Basic [("b", VInt 1)]).
Proof.
  apply (dict_has_no_direct_node
           (BasicRick._iternalize [] sample_nested false)
           [("a", VDict [("b", VInt 1)]); ("c", VStr "x")] "a" Basic
           [("b", VInt 1)]).
  reflexivity.
Defined.

(** X11: a node is equal to itself, never equal to a value that is not
    a node (what its own [dict()] returns included), and never equal to
    a node of the other class, whatever the fields. *)
Theorem eq_needs_a_node (c : cls) (self : pydict) :
  BasicRick.__eq__ c self (VRick c self) = true /\
  (forall v, match v with VRick _ _ => False | _ => True end ->
             BasicRick.__eq__ c self v = false) /\
  (forall d, BasicRick.dict self = Ok d ->
             BasicRick.__eq__ c self (VDict d) = false) /\
  (forall c' self', c <> c' ->
     BasicRick.__eq__ c self (VRick c' self') = false).
Proof.
  destruct (pure_eq_needs_a_node c self) as [H1 [H2 [_ H4]]].
  repeat split; try assumption.
  intros d _. now apply H2.
Qed.

Lemma eq_needs_a_node_witness :
  BasicRick.__eq__ Basic sample_zero (VInt 5) = false /\
  BasicRick.__eq__ Basic sample_zero (VDict sample_zero) = false /\
  BasicRick.__eq__ Basic sample_zero (VRick Extended sample_zero) = false.
Proof.
  split; [|split].
  - exact (proj1 (proj2 (eq_needs_a_node Basic sample_zero)) (VInt 5) I).
  - exact (proj1 (proj2 (proj2 (eq_needs_a_node Basic sample_zero)))
             sample_zero eq_refl).
  - apply (proj2 (proj2 (proj2 (eq_needs_a_node Basic sample_zero)))).
    discriminate.
Defined.

(** X12: for a node built with [deep] off from a mapping of plain data
    in which no mapping has a key called [dict] and the top level has no
    key called [to_yaml_string], [to_yaml_string] hands the YAML
    serializer that mapping, unchanged; with such a key at the top
    level the call raises [TypeError] and the serializer is not
    reached. *)
Theorem to_yaml_string_of_build (w : World) (M : pydict) :
  mapping M = true -> free_of "dict" (VDict M) = true ->
  BasicRick.to_yaml_string w (BasicRick._iternalize [] M false)
  = if contains "to_yaml_string" M then Raise TypeError
    else yaml_safe_dump w (VDict M).
Proof.
  intros HM Hf. pose proof HM as HM'. unfold mapping in HM'.
  apply andb_true_iff in HM' as [_ Hd].
  unfold BasicRick.to_yaml_string, method.
  rewrite contains_build by (now apply (distinct_keys_NoDup Basic)).
  destruct (contains "to_yaml_string" M); [reflexivity|].
  now rewrite dict_of_shallow_build.
Qed.

Lemma to_yaml_string_of_build_witness :
  BasicRick.to_yaml_string pyyaml_fragment
    (BasicRick._iternalize [] sample_ba false)
  = yaml_safe_dump pyyaml_fragment (VDict sample_ba).
Proof.
  apply (to_yaml_string_of_build pyyaml_fragment sample_ba); reflexivity.
Defined.

Lemma deconstructible_relabel (v : value) :
  deconstructible (relabel v) = deconstructible v.
Proof.
  induction v as [| | | |l IH|d IH|c d IH] using value_rect';
    try reflexivity.
  cbn [relabel deconstructible]. f_equal.
  - f_equal. unfold contains. rewrite lookup_map_snd.
    now destruct (lookup "dict" d).
  - clear c. induction IH as [|kv r Hkv _ IHr]; simpl; [reflexivity|].
    now rewrite Hkv, IHr.
Qed.

Lemma new_is_construct (w : World) (deep load_lambda : bool) (M : pydict) :
  ExtendedPickleRick.new w (BDict M) deep load_lambda
  = ExtendedPickleRick.construct w deep load_lambda (VDict M).
Proof.
  unfold ExtendedPickleRick.new, BasicRick.__init__,
    ExtendedPickleRick.iternalize_call, ExtendedPickleRick._iternalize.
  cbn [items ExtendedPickleRick.construct].
  now destruct (ExtendedPickleRick.loop w deep load_lambda
                  (ExtendedPickleRick.construct w deep load_lambda) M [])
    as [self [[]|e]].
Qed.

Lemma unresolved_of_free (v : value) :
  placeholder_free v = true ->
  forall d, v = VDict d ->
  forallb (fun kv => unresolved false (snd kv)) d = true.
Proof.
  induction v as [| | | |l IH|d0 IH|c d0 IH] using value_rect';
    intros Hf d [=]. subst d0.
  simpl in Hf. rewrite forallb_forall in Hf |- *.
  rewrite Forall_forall in IH.
  intros [k x] Hin. specialize (Hf _ Hin). specialize (IH _ Hin).
  simpl in Hf, IH |- *. apply andb_true_iff in Hf as [Hx Hf].
  destruct x as [| | | |l|d'|c d']; try reflexivity.
  cbn [unresolved]. rewrite Hx. simpl. now apply IH.
Qed.

(** X15: on a mapping of plain data in which no mapping held under a
    key has [type] equal to [env] or [lambda] and no mapping has a key
    called [dict], with [deep] off, the resolver variant and the base
    builder both build a node whose [dict()] is the mapping itself. *)
Theorem resolver_agrees_when_shallow (w : World) (load_lambda : bool)
    (M : pydict) :
  mapping M = true -> placeholder_free (VDict M) = true ->
  free_of "dict" (VDict M) = true ->
  exists nb ne,
    BasicRick.new w (BDict M) false = Ok (VRick Basic nb) /\
    ExtendedPickleRick.new w (BDict M) false load_lambda
    = Ok (VRick Extended ne) /\
    BasicRick.dict nb = Ok M /\ BasicRick.dict ne = Ok M.
Proof.
  intros HM Hfree Hf. pose proof HM as HM'. unfold mapping in HM'.
  apply andb_true_iff in HM' as [Hp Hd].
  destruct (pure_resolver_agrees_when_shallow w load_lambda M HM Hfree)
    as [nb [ne [Hb [He [Db De]]]]].
  exists nb, ne. rewrite new_of_dict in Hb. injection Hb as <-.
  repeat split; try assumption.
  - exact (dict_of_shallow_build M HM Hf).
  - rewrite (dict_pure Extended); [now rewrite De|].
    pose proof (proj2 (resolver_relabels w false load_lambda (VDict M) Hp Hd)
                  M eq_refl (unresolved_of_free (VDict M) Hfree M eq_refl))
      as E.
    rewrite <- new_is_construct, He in E.
    assert (E' : VRick Extended ne
                 = relabel (BasicRick.internalized false (VDict M)))
      by congruence.
    rewrite E', deconstructible_relabel.
    now apply deconstructible_build.
Qed.

Lemma resolver_agrees_when_shallow_witness :
  exists nb ne,
    BasicRick.new bare_world (BDict sample_with_list) false
    = Ok (VRick Basic nb) /\
    ExtendedPickleRick.new bare_world (BDict sample_with_list) false true
    = Ok (VRick Extended ne) /\
    BasicRick.dict nb = Ok sample_with_list /\
    BasicRick.dict ne = Ok sample_with_list.
Proof.
  apply (resolver_agrees_when_shallow bare_world true sample_with_list);
    reflexivity.
Defined.

Lemma contains_app_last (name k : string) (self : pydict) (x : value) :
  name <> k ->
  contains name (self ++ [(k, x)])%list = contains name self.
Proof.
  intros Hne. unfold contains.
  induction self as [|[k' v] r IH]; simpl.
  - destruct (String.eqb_spec k name); [congruence|reflexivity].
  - now destruct (String.eqb k' name).
Qed.

(** X17: [__iter__] keeps its cursor among the fields of the node: on a
    node that was never iterated, the number of fields grows by one and
    the call [keys()] returns what it returned before; when [dict()]
    returns, which it does if no node it reaches has a field called
    [dict], the mapping has the extra key [_BasicRick__n]. *)
Theorem iter_leaves_cursor (c : cls) (self : pydict) :
  lookup BasicRick.cursor self = None ->
  BasicRick.__len__ (BasicRick.__iter__ self) = S (BasicRick.__len__ self) /\
  BasicRick.keys c (BasicRick.__iter__ self) = BasicRick.keys c self /\
  (forall d, BasicRick.dict (BasicRick.__iter__ self) = Ok d ->
             lookup BasicRick.cursor d = Some (VInt 0)) /\
  (deconstructible (VRick c self) = true ->
   exists d, BasicRick.dict (BasicRick.__iter__ self) = Ok d).
Proof.
  intros Hc.
  destruct (pure_iter_leaves_cursor c self Hc) as [Hl [Hd Hk]].
  repeat split.
  - exact Hl.
  - unfold BasicRick.keys, method. unfold Pure.keys in Hk. rewrite Hk.
    rewrite (iter_appends self Hc).
    now rewrite contains_app_last by discriminate.
  - intros d H. now rewrite (dict_returns _ d H).
  - intros H. eexists. apply (dict_pure c).
    rewrite (iter_appends self Hc).
    cbn [deconstructible] in H |- *.
    apply andb_true_iff in H as [H1 H2].
    rewrite contains_app_last by discriminate.
    rewrite H1, forallb_app, H2. reflexivity.
Qed.

Lemma iter_leaves_cursor_witness :
  BasicRick.__len__ (BasicRick.__iter__ sample_zero) = 2%nat /\
  BasicRick.keys Basic (BasicRick.__iter__ sample_zero)
  = BasicRick.keys Basic sample_zero /\
  exists d, BasicRick.dict (BasicRick.__iter__ sample_zero) = Ok d.
Proof.
  destruct (iter_leaves_cursor Basic sample_zero eq_refl)
    as [Hl [Hk [_ Hd]]].
  split; [exact Hl|]. split; [exact Hk|]. now apply Hd.
Defined.

(** X20: after a build with [deep] on from a mapping of plain data in
    which no mapping has a key called [dict], [dict()] leaves the nodes
    made from the mappings inside a list where they are: for a list
    under a key of the mapping, the deconstruction holds under that key
    the list with a node in place of each mapping element and every
    other element unchanged. *)
Theorem dict_keeps_nodes_in_lists (M : pydict) (k : string)
    (l : list value) :
  mapping M = true -> free_of "dict" (VDict M) = true ->
  lookup k M = Some (VList l) ->
  exists d,
    BasicRick.dict (BasicRick._iternalize [] M true) = Ok d /\
    lookup k d
    = Some (VList (map (fun i => match i with
                                 | VDict di =>
                                     VRick Basic
                                       (BasicRick._iternalize [] di true)
                                 | _ => i
                                 end) l)).
Proof.
  intros HM Hf Hk. pose proof HM as HM'. unfold mapping in HM'.
  apply andb_true_iff in HM' as [_ Hd].
  pose proof (distinct_keys_NoDup Basic M Hd) as Hnd.
  eexists. split; [now apply dict_of_build_returns|].
  rewrite iternalize_map by exact Hnd.
  rewrite dict_map by (now rewrite keys_map_snd).
  rewrite map_map. simpl.
  rewrite (lookup_map_snd
             (fun x => Pure.dict_value (BasicRick.internalized true x))).
  rewrite Hk. simpl. do 2 f_equal.
  apply map_ext. now intros [].
Qed.

Lemma dict_keeps_nodes_in_lists_witness :
  exists d,
    BasicRick.dict (BasicRick._iternalize [] sample_dict_in_list true)
    = Ok d /\
    lookup "c" d = Some (VList [VRick Basic [("d", VInt 2)]]).
Proof.
  apply (dict_keeps_nodes_in_lists sample_dict_in_list "c"
           [VDict [("d", VInt 2)]]); reflexivity.
Defined.

(** ** The YAML round trip, with the library's own contract *)

Lemma is_sample_ab_eq (v : value) :
  is_sample_ab v = true -> v = VDict sample_ab.
Proof.
  destruct v as [| | | | |d|]; try discriminate.
  destruct d as [|[k1 v1] [|[k2 v2] [|]]]; try discriminate;
    destruct v1; try discriminate; destruct v2; try discriminate.
  simpl. intros H.
  apply andb_true_iff in H as [H Hb].
  apply andb_true_iff in H as [H Hk2].
  apply andb_true_iff in H as [Hk1 Ha].
  apply String.eqb_eq in Hk1, Hk2. apply Z.eqb_eq in Ha, Hb.
  now subst.
Qed.

Lemma pyyaml_sorted_reads_back : yaml_reads_back pyyaml_sorted.
Proof.
  intros v txt _ _ H. simpl in H.
  destruct (is_sample_ab v) eqn:E; [|discriminate].
  injection H as <-. apply is_sample_ab_eq in E. now subst v.
Qed.

(** C4, amended: with a YAML library that reads back every document of
    plain data it writes when the keys are in the order it writes them
    in, and for every mapping [M] of plain data whose keys are in
    sorted order at every level: when [to_yaml_string] on the node built
    from [M] with [deep] off returns a text, and that text is not the
    path of a file, the node built from the text is equal to the first
    one (the two have the same [repr]). *)
Theorem yaml_round_trip (w : World) (M : pydict) (txt : string) :
  yaml_reads_back w ->
  mapping M = true -> keys_sorted (VDict M) = true ->
  BasicRick.to_yaml_string w (BasicRick._iternalize [] M false) = Ok txt ->
  path_isfile w txt = false ->
  exists node',
    BasicRick.new w (BStr txt) false = Ok (VRick Basic node') /\
    BasicRick.__eq__ Basic node'
      (VRick Basic (BasicRick._iternalize [] M false)) = true.
Proof.
  intros Hlib HM Hsorted Hdump Hfile.
  pose proof HM as HM'. unfold mapping in HM'.
  apply andb_true_iff in HM' as [Hp Hd].
  unfold BasicRick.to_yaml_string, method in Hdump.
  destruct (contains "to_yaml_string" (BasicRick._iternalize [] M false));
    [discriminate|].
  destruct (BasicRick.dict (BasicRick._iternalize [] M false))
    as [d|e] eqn:Edict; [|discriminate].
  apply dict_returns in Edict.
  rewrite pure_dict_of_shallow_build in Edict by exact HM. subst d.
  simpl in Hdump.
  pose proof (Hlib (VDict M) txt Hp Hsorted Hdump) as Hload.
  exists (BasicRick._iternalize [] M false). split.
  - unfold BasicRick.new, BasicRick.__init__, BasicRick.or_else,
      BasicRick.nothing, os_path_isfile.
    rewrite Hfile, Hload. reflexivity.
  - unfold BasicRick.__eq__, BasicRick.__repr__. apply String.eqb_refl.
Qed.

Lemma yaml_round_trip_witness :
  exists node',
    BasicRick.new pyyaml_sorted (BStr sample_ab_yaml) false
    = Ok (VRick Basic node') /\
    BasicRick.__eq__ Basic node'
      (VRick Basic (BasicRick._iternalize [] sample_ab false)) = true.
Proof.
  apply (yaml_round_trip pyyaml_sorted sample_ab sample_ab_yaml
           pyyaml_sorted_reads_back); reflexivity.
Defined.

(** C4 as stated fails on [{"b": 1, "a": 2}]: the text written has the
    keys sorted, the node built from it has the fields [a], [b] in that
    order, and its [repr] is not that of the first node. *)
Lemma yaml_round_trip_counterexample :
  mapping sample_ba = true /\
  BasicRick.new pyyaml_fragment (BDict sample_ba) false
  = Ok (VRick Basic sample_ba) /\
  BasicRick.to_yaml_string pyyaml_fragment sample_ba = Ok sample_ab_yaml /\
  BasicRick.new pyyaml_fragment (BStr sample_ab_yaml) false
  = Ok (VRick Basic sample_ab) /\
  BasicRick.__repr__ Basic sample_ba = "BasicRick(b=1, a=2)" /\
  BasicRick.__repr__ Basic sample_ab = "BasicRick(a=2, b=1)" /\
  BasicRick.__eq__ Basic sample_ab (VRick Basic sample_ba) = false.
Proof. repeat split. Qed.

(** X10: on a node whose field names are distinct and that has no field
    called [keys], [values] or [items], the calls [keys()] and
    [values()] return the names and the values of the same fields, in
    their order: the fields whose name neither contains the name of the
    class nor ends in [__n]; a field with such a name is listed by
    neither, whatever it holds; [items()] returns every field.  With a
    field called [keys], [values] or [items] the call of that name
    raises [TypeError]. *)
Theorem keys_values_aligned (c : cls) (self : pydict) :
  NoDup (keys self) ->
  let shown := filter (fun kv => negb (BasicRick.hidden c (fst kv))) self in
  BasicRick.keys c self
  = (if contains "keys" self then Raise TypeError
     else Ok (map fst shown)) /\
  BasicRick.values c self
  = (if contains "values" self then Raise TypeError
     else Ok (map (fun kv => Ok (snd kv)) shown)) /\
  BasicRick.items self
  = (if contains "items" self then Raise TypeError
     else Ok (map (fun kv => (fst kv, Ok (snd kv))) self)) /\
  (forall names pre post,
     BasicRick.keys c self = Ok names ->
     ~ In (pre ++ cls_name c ++ post) names) /\
  (forall names pre,
     BasicRick.keys c self = Ok names -> ~ In (pre ++ "__n") names).
Proof.
  intros Hnd shown.
  destruct (pure_keys_values_aligned c self Hnd)
    as [Hk [Hv [Hi [Hcls Hn]]]].
  unfold BasicRick.keys, BasicRick.values, BasicRick.items, method.
  unfold Pure.keys in Hk, Hcls, Hn. unfold Pure.values in Hv.
  unfold Pure.items in Hi.
  repeat split.
  - now rewrite Hk.
  - now rewrite Hv.
  - now rewrite Hi.
  - intros names pre post.
    destruct (contains "keys" self); [discriminate|].
    intros [= <-]. apply Hcls.
  - intros names pre.
    destruct (contains "keys" self); [discriminate|].
    intros [= <-]. apply Hn.
Qed.

Lemma keys_values_aligned_witness :
  BasicRick.keys Basic
    [("a", VInt 1); ("xBasicRicky", VInt 2); ("b", VInt 3)]
  = Ok ["a"; "b"] /\
  BasicRick.values Basic
    [("a", VInt 1); ("xBasicRicky", VInt 2); ("b", VInt 3)]
  = Ok [Ok (VInt 1); Ok (VInt 3)].
Proof.
  assert (Hnd : NoDup (keys [("a", VInt 1); ("xBasicRicky", VInt 2);
                             ("b", VInt 3)]))
    by (repeat constructor; simpl; intuition discriminate).
  split.
  - exact (proj1 (keys_values_aligned Basic _ Hnd)).
  - exact (proj1 (proj2 (keys_values_aligned Basic _ Hnd))).
Defined.

(** X1: built from a [str], [BasicRick], and [ExtendedPickleRick] with
    [load_lambda] off, return a node or raise [ValueError]: every
    exception of a parser or of [_iternalize] on the way (the
    [KeyError] of a placeholder without [load], the [TypeError] of a
    [load] that is no variable name) is caught by the [try] blocks. *)
Theorem str_input_outcome (w : World) (deep : bool) (s : string) :
  ((exists node, BasicRick.new w (BStr s) deep = Ok node) \/
   BasicRick.new w (BStr s) deep = Raise ValueError) /\
  ((exists node,
      ExtendedPickleRick.new w (BStr s) deep false = Ok node) \/
   ExtendedPickleRick.new w (BStr s) deep false = Raise ValueError).
Proof.
  split.
  - apply new_str_outcome.
  - unfold ExtendedPickleRick.new.
    destruct (init_str_outcome w
                (ExtendedPickleRick.iternalize_call w deep false) s [])
      as [self' [E|E]]; rewrite E.
    + left. eexists. reflexivity.
    + now right.
Qed.

(** ** Placeholders at any depth *)

Lemma new_list_nth (construct : value -> result value)
    (l l' : list value) :
  ExtendedPickleRick.new_list construct l = Ok l' ->
  forall i d, nth_error l i = Some (VDict d) ->
  exists y, nth_error l' i = Some y /\ construct (VDict d) = Ok y.
Proof.
  revert l'.
  induction l as [|x r IH]; intros l' H i d Hi.
  - now destruct i.
  - simpl in H.
    destruct (match x with VDict _ => construct x | _ => Ok x end)
      as [y|e] eqn:Ex; [|discriminate].
    simpl in H.
    destruct (ExtendedPickleRick.new_list construct r) as [r'|e] eqn:Er;
      [|discriminate].
    simpl in H. injection H as <-.
    destruct i as [|i]; simpl in Hi |- *.
    + injection Hi as ->. now exists y.
    + now apply (IH r' eq_refl i d).
Qed.

Lemma construct_fields (w : World) (deep load_lambda : bool) (d : pydict)
    (x : value) :
  ExtendedPickleRick.construct w deep load_lambda (VDict d) = Ok x ->
  exists fields,
    x = VRick Extended fields /\
    ExtendedPickleRick.loop w deep load_lambda
      (ExtendedPickleRick.construct w deep load_lambda) d []
    = (fields, Ok tt).
Proof.
  cbn [ExtendedPickleRick.construct].
  destruct (ExtendedPickleRick.loop w deep load_lambda
              (ExtendedPickleRick.construct w deep load_lambda) d [])
    as [self [[]|e]]; [|discriminate].
  intros [= <-]. now exists self.
Qed.

Lemma distinct_keys_entry (d : pydict) (k : string) (v : value) :
  distinct_keys (VDict d) = true -> lookup k d = Some v ->
  NoDup (keys d) /\ In (k, v) d /\ distinct_keys v = true.
Proof.
  intros Hd Hk. pose proof (distinct_keys_NoDup Basic d Hd) as Hnd.
  apply lookup_In in Hk. repeat split; try assumption.
  simpl in Hd. apply andb_true_iff in Hd as [_ Hd].
  rewrite forallb_forall in Hd. apply (Hd _ Hk).
Qed.

(** A [lambda] placeholder the resolver comes to is replaced, where it
    is, by its [load] field or by what [eval] makes of it, as the flag
    says. *)
Lemma meets_resolved (w : World) (deep load_lambda : bool)
    (p : pydict) (payload : value) (v : value) (path : list step) :
  lookup "type" p = Some (VStr "lambda") ->
  lookup "load" p = Some payload ->
  meets deep v path p ->
  distinct_keys v = true ->
  forall x,
    ExtendedPickleRick.internalized w deep load_lambda
      (ExtendedPickleRick.construct w deep load_lambda) v = Ok x ->
    exists r,
      (if load_lambda then py_eval w payload else Ok payload) = Ok r /\
      follow path x = Some r.
Proof.
  intros Ht Hl Hm.
  induction Hm as [p|d k v path p He Hla Hk Hm IH
                   |l i d k v path p Hdeep Hi Hk Hm IH];
    intros Hd x Hx.
  - rewrite (internalized_lambda w deep load_lambda _ p payload Ht Hl) in Hx.
    exists x. split; [exact Hx|reflexivity].
  - unfold ExtendedPickleRick.internalized in Hx. rewrite He, Hla in Hx.
    destruct (construct_fields w deep load_lambda d x Hx)
      as [fields [-> Hloop]].
    destruct (distinct_keys_entry d k v Hd Hk) as [Hnd [Hin Hdv]].
    destruct (loop_stores w deep load_lambda d [] fields k v Hloop Hnd Hin)
      as [x' [Hx' Hlook]].
    destruct (IH Ht Hl Hdv x' Hx') as [r [Hr Hf]].
    exists r. split; [exact Hr|]. simpl. now rewrite Hlook.
  - subst deep. unfold ExtendedPickleRick.internalized in Hx.
    destruct (ExtendedPickleRick.new_list
                (ExtendedPickleRick.construct w true load_lambda) l)
      as [l'|e] eqn:El; [|discriminate].
    simpl in Hx. injection Hx as <-.
    destruct (new_list_nth _ l l' El i d Hi) as [y [Hy Hc]].
    destruct (construct_fields w true load_lambda d y Hc)
      as [fields [-> Hloop]].
    assert (Hdd : distinct_keys (VDict d) = true).
    { simpl in Hd. rewrite forallb_forall in Hd.
      apply (Hd (VDict d)). eapply nth_error_In. eassumption. }
    destruct (distinct_keys_entry d k v Hdd Hk) as [Hnd [Hin Hdv]].
    destruct (loop_stores w true load_lambda d [] fields k v Hloop Hnd Hin)
      as [x' [Hx' Hlook]].
    destruct (IH Ht Hl Hdv x' Hx') as [r [Hr Hf]].
    exists r. split; [exact Hr|]. simpl. now rewrite Hy, Hlook.
Qed.

Lemma new_list_ext (c1 c2 : value -> result value) (l : list value) :
  Forall (fun i => c1 i = c2 i) l ->
  ExtendedPickleRick.new_list c1 l = ExtendedPickleRick.new_list c2 l.
Proof.
  induction 1 as [|i r Hi _ IH]; simpl; [reflexivity|].
  rewrite IH. now destruct i; try rewrite Hi.
Qed.

Lemma loop_ext (w w' : World) (deep load_lambda : bool)
    (c c' : value -> result value) (l self : pydict) :
  Forall (fun kv =>
            ExtendedPickleRick.internalized w' deep load_lambda c' (snd kv)
            = ExtendedPickleRick.internalized w deep load_lambda c (snd kv))
         l ->
  ExtendedPickleRick.loop w' deep load_lambda c' l self
  = ExtendedPickleRick.loop w deep load_lambda c l self.
Proof.
  intros H. revert self.
  induction H as [|[k v] r Hv _ IH]; intros self; simpl; [reflexivity|].
  simpl in Hv. rewrite Hv.
  now destruct (ExtendedPickleRick.internalized w deep load_lambda c v).
Qed.

(** With the flag off nothing is handed to [eval], at any depth: the
    tree does not depend on what [eval] would do. *)
Lemma construct_ignores_eval (w w' : World) (deep : bool) (v : value) :
  (forall n, getenv w' n = getenv w n) ->
  ExtendedPickleRick.internalized w' deep false
    (ExtendedPickleRick.construct w' deep false) v
  = ExtendedPickleRick.internalized w deep false
      (ExtendedPickleRick.construct w deep false) v /\
  ExtendedPickleRick.construct w' deep false v
  = ExtendedPickleRick.construct w deep false v.
Proof.
  intros Henv.
  induction v as [| | | |l IH|d IH|c d IH] using value_rect';
    try (split; reflexivity).
  - split; [|reflexivity].
    unfold ExtendedPickleRick.internalized.
    destruct deep; [|reflexivity].
    rewrite (new_list_ext (ExtendedPickleRick.construct w' true false)
               (ExtendedPickleRick.construct w true false) l);
      [reflexivity|].
    rewrite Forall_forall in IH |- *. intros i Hi. apply (IH i Hi).
  - assert (Hc : ExtendedPickleRick.construct w' deep false (VDict d)
                 = ExtendedPickleRick.construct w deep false (VDict d)).
    { cbn [ExtendedPickleRick.construct].
      rewrite (loop_ext w w' deep false
                 (ExtendedPickleRick.construct w deep false)
                 (ExtendedPickleRick.construct w' deep false) d []);
        [reflexivity|].
      rewrite Forall_forall in IH |- *. intros kv Hin. apply (IH kv Hin). }
    split; [|exact Hc].
    unfold ExtendedPickleRick.internalized.
    destruct (ExtendedPickleRick.has_type "env" d).
    + unfold ExtendedPickleRick.os_getenv.
      destruct (lookup "default" d);
        destruct (ExtendedPickleRick.subscript d "load") as [[]|];
        simpl; try reflexivity; now rewrite Henv.
    + destruct (ExtendedPickleRick.has_type "lambda" d); [reflexivity|].
      exact Hc.
Qed.

(** C7: a nested mapping with [type] equal to [lambda] is replaced, when
    [load_lambda] is false, by the content of its [load] field as it is,
    without an error and whatever [eval] would do with it; the content
    is handed to [eval] only when [load_lambda] is true, and then the
    result of [eval] is stored or its exception raised.  This holds of
    a placeholder under a key of the mapping given to the constructor
    and of every placeholder the resolver comes to below it, in nested
    mappings and, with [deep], in the mappings inside lists: the flag
    is handed down.  With the flag off the whole tree is the same for
    every [eval]. *)
Theorem lambda_placeholder (w : World) (deep : bool) (k : string)
    (v : pydict) (payload : value) :
  lookup "type" v = Some (VStr "lambda") ->
  lookup "load" v = Some payload ->
  ExtendedPickleRick.new w (BDict [(k, VDict v)]) deep false
  = Ok (VRick Extended [(k, payload)]) /\
  ExtendedPickleRick.new w (BDict [(k, VDict v)]) deep true
  = match py_eval w payload with
    | Ok x => Ok (VRick Extended [(k, x)])
    | Raise e => Raise e
    end /\
  (forall M node,
     nodupb (keys M) = true -> lookup k M = Some (VDict v) ->
     ExtendedPickleRick.new w (BDict M) deep false
     = Ok (VRick Extended node) ->
     lookup k node = Some payload) /\
  (forall M node,
     nodupb (keys M) = true -> lookup k M = Some (VDict v) ->
     ExtendedPickleRick.new w (BDict M) deep true
     = Ok (VRick Extended node) ->
     exists x, py_eval w payload = Ok x /\ lookup k node = Some x) /\
  (forall load_lambda M k0 v0 path node,
     distinct_keys (VDict M) = true ->
     lookup k0 M = Some v0 -> meets deep v0 path v ->
     ExtendedPickleRick.new w (BDict M) deep load_lambda = Ok node ->
     exists r,
       (if load_lambda then py_eval w payload else Ok payload) = Ok r /\
       follow (Key k0 :: path) node = Some r) /\
  (forall w' M,
     (forall n, getenv w' n = getenv w n) ->
     ExtendedPickleRick.new w' (BDict M) deep false
     = ExtendedPickleRick.new w (BDict M) deep false).
Proof.
  intros Ht Hl.
  destruct (pure_lambda_placeholder w deep k v payload Ht Hl)
    as [H1 [H2 [H3 H4]]].
  split; [exact H1|]. split; [exact H2|].
  split; [exact H3|]. split; [exact H4|]. split.
  - intros load_lambda M k0 v0 path node Hd Hk Hm Hnew.
    rewrite new_is_construct in Hnew.
    destruct (construct_fields w deep load_lambda M node Hnew)
      as [fields [-> Hloop]].
    destruct (distinct_keys_entry M k0 v0 Hd Hk) as [Hnd [Hin Hdv]].
    destruct (loop_stores w deep load_lambda M [] fields k0 v0 Hloop Hnd Hin)
      as [x' [Hx' Hlook]].
    destruct (meets_resolved w deep load_lambda v payload v0 path
                Ht Hl Hm Hdv x' Hx') as [r [Hr Hf]].
    exists r. split; [exact Hr|]. simpl. now rewrite Hlook.
  - intros w' M Henv. rewrite !new_is_construct.
    apply (construct_ignores_eval w w' deep (VDict M) Henv).
Qed.

Lemma lambda_placeholder_witness :
  (exists node,
     ExtendedPickleRick.new sums_world (BDict sample_deep_lambda) true false
     = Ok node /\
     follow [Key "a"; Key "f"] node = Some (VStr "1 + 1")) /\
  (exists node r,
     ExtendedPickleRick.new sums_world (BDict sample_deep_lambda) true true
     = Ok node /\
     py_eval sums_world (VStr "2 + 2") = Ok r /\
     follow [Key "c"; Index 0; Key "g"] node = Some r).
Proof.
  assert (Ma : meets true
                 (VDict [("f", VDict [("type", VStr "lambda");
                                      ("load", VStr "1 + 1")])])
                 [Key "f"]
                 [("type", VStr "lambda"); ("load", VStr "1 + 1")]).
  { eapply meets_key;
      [reflexivity|reflexivity|reflexivity|apply meets_here]. }
  assert (Mc : meets true
                 (VList [VDict [("g", VDict [("type", VStr "lambda");
                                             ("load", VStr "2 + 2")])]])
                 [Index 0; Key "g"]
                 [("type", VStr "lambda"); ("load", VStr "2 + 2")]).
  { eapply meets_index;
      [reflexivity|reflexivity|reflexivity|apply meets_here]. }
  split.
  - destruct (ExtendedPickleRick.new sums_world (BDict sample_deep_lambda)
                true false) as [node|e] eqn:E; [|discriminate E].
    exists node. split; [reflexivity|].
    destruct (proj1 (proj2 (proj2 (proj2 (proj2
                (lambda_placeholder sums_world true "f"
                   [("type", VStr "lambda"); ("load", VStr "1 + 1")]
                   (VStr "1 + 1") eq_refl eq_refl)))))
                false sample_deep_lambda "a" _ [Key "f"] node
                eq_refl eq_refl Ma E) as [r [Hr Hf]].
    injection Hr as <-. exact Hf.
  - destruct (ExtendedPickleRick.new sums_world (BDict sample_deep_lambda)
                true true) as [node|e] eqn:E; [|discriminate E].
    destruct (proj1 (proj2 (proj2 (proj2 (proj2
                (lambda_placeholder sums_world true "g"
                   [("type", VStr "lambda"); ("load", VStr "2 + 2")]
                   (VStr "2 + 2") eq_refl eq_refl)))))
                true sample_deep_lambda "c" _ [Index 0; Key "g"] node
                eq_refl eq_refl Mc E) as [r [Hr Hf]].
    exists node, r. repeat split; assumption.
Defined.
